(** * marvin.beta.assistants.formatting

    A shallow embedding of [src/marvin/beta/assistants/formatting.py]:
    the step formatter [format_step], the message formatter
    [format_message] with its attachment download [download_temp_file],
    and the run merger [format_run].

    Conventions.
    - A Python [str] is a [string]; each [ascii] stands for one character
      (the code points 0 to 255).
    - A Python [int] is a [Z].
    - A call that can raise returns an [Outcome]; code that also touches
      the file system runs in [IO], a state-and-error monad over [World].
    - Functions of other packages (json, partialjson, datetime, openai,
      tempfile's name generator) are the fields of the class [Externals]. *)

From Stdlib Require Import ZArith NArith Ascii String List Lia Bool Sorted Permutation.
From stdpp Require Import base option list strings gmap.

Local Open Scope Z_scope.
Local Open Scope nat_scope.

#[local] Arguments String.append : simpl nomatch.

(** ** Python string built-ins used by the module *)

(** [str.isspace] on one character: the white space that [str.lstrip()]
    removes (tab to carriage return, the four separators 28 to 31, space,
    NEL and no-break space). *)
Definition is_space (c : ascii) : bool :=
  let n := nat_of_ascii c in
  ((9 <=? n) && (n <=? 13)) || ((28 <=? n) && (n <=? 32))
  || (n =? 133) || (n =? 160).

(** [s.lstrip()] *)
Fixpoint lstrip (s : string) : string :=
  match s with
  | EmptyString => EmptyString
  | String c t => if is_space c then lstrip t else s
  end.

(** [s.lstrip(chars)] for a one-character [chars] *)
Fixpoint lstrip_char (ch : ascii) (s : string) : string :=
  match s with
  | EmptyString => EmptyString
  | String c t => if Ascii.eqb c ch then lstrip_char ch t else s
  end.

(** [n * " "] *)
Fixpoint spaces (n : nat) : string :=
  match n with
  | O => EmptyString
  | S k => String " " (spaces k)
  end.

Definition TAB : ascii := ascii_of_nat 9.
Definition LF : ascii := ascii_of_nat 10.
Definition CR : ascii := ascii_of_nat 13.

(** [s.expandtabs()] with the default tab size 8; [col] is the current
    column, reset after a line feed or a carriage return. *)
Fixpoint expandtabs_from (col : nat) (s : string) : string :=
  match s with
  | EmptyString => EmptyString
  | String c t =>
      if Ascii.eqb c TAB then
        let incr := 8 - col mod 8 in
        spaces incr +:+ expandtabs_from (col + incr) t
      else if Ascii.eqb c LF || Ascii.eqb c CR then
        String c (expandtabs_from 0 t)
      else String c (expandtabs_from (S col) t)
  end.

Definition expandtabs (s : string) : string := expandtabs_from 0 s.

(** [s.split(sep)] for a one-character separator: never the empty list. *)
Fixpoint split (sep : ascii) (s : string) : list string :=
  match s with
  | EmptyString => [EmptyString]
  | String c t =>
      if Ascii.eqb c sep then EmptyString :: split sep t
      else match split sep t with
           | l :: ls => String c l :: ls
           | [] => [String c EmptyString]
           end
  end.

(** [sep.join(lines)] *)
Definition join (sep : string) (lines : list string) : string :=
  String.concat sep lines.

(** [s[n:]] *)
Fixpoint drop_chars (n : nat) (s : string) : string :=
  match n, s with
  | O, _ => s
  | S k, EmptyString => EmptyString
  | S k, String _ t => drop_chars k t
  end.

(** [s.endswith(suffix)] *)
Definition endswith (s suffix : string) : bool :=
  String.eqb (drop_chars (String.length s - String.length suffix) s) suffix
  && (String.length suffix <=? String.length s).

(** [sub in s] *)
Fixpoint contains (sub s : string) : bool :=
  String.prefix sub s ||
  match s with
  | EmptyString => false
  | String _ t => contains sub t
  end.

(** *** inspect.cleandoc *)

(** The indentation of a line, [None] for a blank line. *)
Definition indent_of (line : string) : option nat :=
  let content := String.length (lstrip line) in
  if content =? 0 then None else Some (String.length line - content).

(** The minimum indentation of the non-blank lines; [None] plays the part
    of [sys.maxsize]. *)
Fixpoint min_margin (margin : option nat) (lines : list string) : option nat :=
  match lines with
  | [] => margin
  | line :: rest =>
      match indent_of line with
      | None => min_margin margin rest
      | Some i =>
          min_margin (Some (match margin with
                            | None => i
                            | Some m => Nat.min m i
                            end)) rest
      end
  end.

Definition is_empty (s : string) : bool :=
  match s with EmptyString => true | _ => false end.

(** [while lines and not lines[0]: lines.pop(0)] *)
Fixpoint pop_leading (lines : list string) : list string :=
  match lines with
  | [] => []
  | l :: rest => if is_empty l then pop_leading rest else lines
  end.

(** [while lines and not lines[-1]: lines.pop()] *)
Fixpoint pop_trailing (lines : list string) : list string :=
  match lines with
  | [] => []
  | l :: rest =>
      match pop_trailing rest with
      | [] => if is_empty l then [] else [l]
      | rest' => l :: rest'
      end
  end.

(** The work of [inspect.cleandoc] on the list of lines: strip the first
    line on the left, remove the common margin of the other lines, drop
    empty lines at both ends. *)
Definition cleandoc_lines (lines : list string) : list string :=
  let margin := min_margin None (tl lines) in
  let lines :=
    match lines with
    | [] => []
    | first :: rest =>
        lstrip first ::
        match margin with
        | None => rest
        | Some m => map (drop_chars m) rest
        end
    end in
  pop_leading (pop_trailing lines).

Definition NL : string := String LF EmptyString.

(** [inspect.cleandoc(doc)] *)
Definition cleandoc (doc : string) : string :=
  join NL (cleandoc_lines (split LF (expandtabs doc))).

(** ** Exceptions and the two monads *)

(** The exception classes that can reach this module.  All of them derive
    from [Exception] except [KeyboardInterrupt]; [JSONDecodeError] is the
    class the strict parse is documented to raise. *)
Inductive exception : Type :=
  | JSONDecodeError
  | ValueError
  | KeyError
  | RecursionError
  | AttributeError
  | APIError
  | OSError
  | KeyboardInterrupt.

(** [isinstance(e, json.JSONDecodeError)] *)
Definition is_JSONDecodeError (e : exception) : bool :=
  match e with JSONDecodeError => true | _ => false end.

(** [isinstance(e, Exception)] *)
Definition is_Exception (e : exception) : bool :=
  match e with KeyboardInterrupt => false | _ => true end.

(** The result of evaluating an expression that may raise. *)
Inductive Outcome (A : Type) : Type :=
  | Returned (a : A)
  | Raised (e : exception).
Arguments Returned {A} a.
Arguments Raised {A} e.

Global Instance Outcome_ret : MRet Outcome := fun A a => Returned a.
Global Instance Outcome_bind : MBind Outcome := fun A B f m =>
  match m with
  | Returned a => f a
  | Raised e => Raised e
  end.

(** The file system as far as the module writes to it: the files created so
    far, most recent first, and how many names the temp-file facility has
    handed out. *)
Record World : Type := mkWorld {
  files : list (string * string);
  names_used : nat
}.

Definition IO (A : Type) : Type := World -> Outcome A * World.

Global Instance IO_ret : MRet IO := fun A a w => (Returned a, w).
Global Instance IO_bind : MBind IO := fun A B f m w =>
  match m w with
  | (Returned a, w') => f a w'
  | (Raised e, w') => (Raised e, w')
  end.

(** Run a computation that cannot touch the world. *)
Definition lift {A : Type} (o : Outcome A) : IO A := fun w => (o, w).

(** [[f(x) for x in xs]] when [f] may raise or write files: left to right,
    stopping at the first exception. *)
Fixpoint for_each {A B : Type} (f : A -> IO B) (xs : list A) : IO (list B) :=
  match xs with
  | [] => mret []
  | x :: rest => y ← f x; ys ← for_each f rest; mret (y :: ys)
  end.

(** *** str.format *)

(** [kwargs[name]] *)
Fixpoint kwargs_get (name : string) (kwargs : list (string * string))
  : option string :=
  match kwargs with
  | [] => None
  | (k, v) :: rest => if String.eqb k name then Some v else kwargs_get name rest
  end.

(** [template.format(name=value, ...)] for the replacement fields the module
    writes: [{name}], and the escapes [{{] and [}}].  [field] is the name
    read so far when the scan is inside braces. *)
Fixpoint format_from (field : option string) (template : string)
    (kwargs : list (string * string)) : Outcome string :=
  match field, template with
  | None, EmptyString => Returned EmptyString
  | Some _, EmptyString => Raised ValueError
  | None, String "{" (String "{" t) =>
      r ← format_from None t kwargs; mret (String "{" r)
  | None, String "{" t => format_from (Some EmptyString) t kwargs
  | None, String "}" (String "}" t) =>
      r ← format_from None t kwargs; mret (String "}" r)
  | None, String "}" _ => Raised ValueError
  | None, String c t => r ← format_from None t kwargs; mret (String c r)
  | Some name, String "}" t =>
      match kwargs_get name kwargs with
      | None => Raised KeyError
      | Some v => r ← format_from None t kwargs; mret (v +:+ r)
      end
  | Some name, String c t =>
      format_from (Some (name +:+ String c EmptyString)) t kwargs
  end%char.

Definition format (template : string) (kwargs : list (string * string))
  : Outcome string :=
  format_from None template kwargs.

(** [try: body / except <class>: handler], the class given by its
    [isinstance] test. *)
Definition try_except {A : Type} (body : Outcome A)
    (catches : exception -> bool) (handler : Outcome A) : Outcome A :=
  match body with
  | Returned a => Returned a
  | Raised e => if catches e then handler else Raised e
  end.

(** ** Data model *)

(** What the JSON parsers return: Python objects built from JSON.  A float
    is carried as its 64-bit pattern. *)
#[warnings="-register-all"] Inductive pyobj : Type :=
  | PyNone
  | PyBool (b : bool)
  | PyInt (n : Z)
  | PyFloat (bits : Z)
  | PyStr (s : string)
  | PyList (xs : list pyobj)
  | PyDict (items : list (string * pyobj)).

(** One captured output of a code-interpreter call: the text the code
    printed, or an image it drew, given by the id of its file. *)
Inductive CodeInterpreterOutput : Type :=
  | CodeInterpreterOutputLogs (text : string)
  | CodeInterpreterOutputImage (image_file_id : string).

(** [output.logs]: only a logs output has the attribute. *)
Definition logs (output : CodeInterpreterOutput) : Outcome string :=
  match output with
  | CodeInterpreterOutputLogs text => Returned text
  | CodeInterpreterOutputImage _ => Raised AttributeError
  end.

Record CodeInterpreter : Type := {
  input : string;
  outputs : list CodeInterpreterOutput
}.

Record Function : Type := {
  name : string;
  arguments : string;
  output : option string
}.

(** A tool call is discriminated by its [type]: ["code_interpreter"],
    ["function"], or another tool (retrieval) that carries neither
    payload. *)
Inductive ToolCall : Type :=
  | CodeInterpreterToolCall (code_interpreter : CodeInterpreter)
  | FunctionToolCall (function : Function)
  | RetrievalToolCall.

Definition tool_call_type (tool_call : ToolCall) : string :=
  match tool_call with
  | CodeInterpreterToolCall _ => "code_interpreter"
  | FunctionToolCall _ => "function"
  | RetrievalToolCall => "retrieval"
  end.

Inductive StepDetails : Type :=
  | ToolCallsStepDetails (tool_calls : list ToolCall)
  | MessageCreationStepDetails (message_id : string).

Inductive Status : Type :=
  | in_progress | cancelled | failed | completed | expired.

Definition status_str (st : Status) : string :=
  match st with
  | in_progress => "in_progress"
  | cancelled => "cancelled"
  | failed => "failed"
  | completed => "completed"
  | expired => "expired"
  end.

Record RunStep : Type := {
  step_created_at : Z;
  status : Status;
  step_details : StepDetails
}.

(** [step.type], which the API keeps equal to the kind of [step_details]. *)
Definition step_type (step : RunStep) : string :=
  match step_details step with
  | ToolCallsStepDetails _ => "tool_calls"
  | MessageCreationStepDetails _ => "message_creation"
  end.

Inductive MessageContent : Type :=
  | MessageContentText (text_value : string)
  | MessageContentImageFile (image_file_id : string).

Record Message : Type := {
  role : string;
  content : list MessageContent;
  file_ids : list string;
  message_created_at : Z
}.

(** Anything that has [.messages] and [.steps]. *)
Record Run : Type := {
  messages : list Message;
  steps : list RunStep
}.

(** Both kinds of object carry [created_at]. *)
Class CreatedAt (A : Type) : Type := created_at : A -> Z.
Global Instance Message_created_at : CreatedAt Message := message_created_at.
Global Instance RunStep_created_at : CreatedAt RunStep := step_created_at.

(** *** rich *)

Record Markdown : Type := { markup : string }.

Inductive Box : Type := ROUNDED.

Record Panel : Type := {
  renderable : Markdown;
  title : string;
  subtitle : string;
  title_align : string;
  subtitle_align : string;
  border_style : string;
  box : Box;
  width : Z;
  expand : bool;
  padding : Z * Z
}.

(** A [Group] built from the collected panels keeps them in order. *)
Record Group : Type := { renderables : list Panel }.

(** What [format_run] collects: a [Panel] per message, a [Group] per step. *)
Inductive Renderable : Type :=
  | OfPanel (p : Panel)
  | OfGroup (g : Group).

(** ** Functions of other packages *)

Class Externals : Type := {
  (** [json.loads] *)
  json_loads : string -> Outcome pyobj;
  (** [partialjson.JSONParser().parse] *)
  json_parser_parse : string -> Outcome pyobj;
  (** [repr] of a parsed object that is not a [str] *)
  repr : pyobj -> string;
  (** [datetime.fromtimestamp(t).strftime(fmt)], in the local time zone *)
  strftime : string -> Z -> string;
  (** [str.capitalize] *)
  capitalize : string -> string;
  (** [openai.Client().files.with_raw_response.retrieve_content(id).content] *)
  retrieve_content : string -> Outcome string;
  (** [tempfile.gettempdir()] *)
  gettempdir : string;
  (** the random part of the n-th name [tempfile] hands out *)
  candidate_name : nat -> string
}.

(** ** The module *)

(** The three triple-quoted templates, as they stand in the source. *)
Definition RESULT_TEMPLATE : string :=
"
                        Result:
                        
                        ```python
                        {result}
                        ```
                        ".

Definition CODE_INTERPRETER_TEMPLATE : string :=
"
                    Assistant is running the code interpreter...
                    
                    ```python
                    {input}
                    ```
                    
                    {footer}
                    ".

Definition FUNCTION_TEMPLATE : string :=
"
                    Assistant is using the `{function}` tool with arguments:
                    
                    ```python
                    {args}
                    ```
                    
                    {footer}
                    ".

(** [if s:] on an optional string: false for [None] and for the empty
    string. *)
Definition truthy_opt (s : option string) : bool :=
  match s with
  | None => false
  | Some s => negb (is_empty s)
  end.

(** [f"{x}"] for an optional string: [None] prints as its name. *)
Definition fstr_opt (x : option string) : string :=
  match x with
  | None => "None"
  | Some s => s
  end.

Section Formatting.
Context `{E : Externals}.

(** [str(o)], as [{args}] formats it. *)
Definition str (o : pyobj) : string :=
  match o with
  | PyStr s => s
  | _ => repr o
  end.

(** The argument decoder of [format_step] (source lines 57-63). *)
Definition decode_arguments (arguments : string) : Outcome pyobj :=
  try_except (json_loads arguments) is_JSONDecodeError
    (try_except (json_parser_parse arguments) is_Exception
       (Returned (PyStr arguments))).

(** The body of the loop over [tool_calls] up to the panel: the new value
    of the variable [content], which an entry of another type leaves as it
    was. *)
Definition tool_call_content (content : string) (tool_call : ToolCall)
  : Outcome string :=
  match tool_call with
  | CodeInterpreterToolCall code_interpreter =>
      footer ←
        match outputs code_interpreter with
        | first :: _ =>
            result ← logs first;
            format (cleandoc RESULT_TEMPLATE) [("result", result)]
        | [] => Returned EmptyString
        end;
      format (cleandoc CODE_INTERPRETER_TEMPLATE)
        [("input", input code_interpreter); ("footer", footer)]
  | FunctionToolCall function =>
      args ← decode_arguments (arguments function);
      footer ←
        (if truthy_opt (output function)
         then format (cleandoc RESULT_TEMPLATE)
                [("result", fstr_opt (output function))]
         else Returned EmptyString);
      format (cleandoc FUNCTION_TEMPLATE)
        [("function", name function); ("args", str args); ("footer", footer)]
  | RetrievalToolCall => Returned content
  end.

(** The panel for the run step status. *)
Definition step_panel (timestamp content : string) : Panel :=
  {| renderable := {| markup := cleandoc content |};
     title := "System";
     subtitle := "[italic]" +:+ timestamp +:+ "[/]";
     title_align := "left";
     subtitle_align := "right";
     border_style := "gray74";
     box := ROUNDED;
     width := 100%Z;
     expand := true;
     padding := (1%Z, 2%Z) |}.

(** [for tool_call in step.step_details.tool_calls: ...], threading the
    variables [content] and [panels]. *)
Fixpoint format_tool_calls (timestamp content : string) (panels : list Panel)
    (tool_calls : list ToolCall) : Outcome (list Panel) :=
  match tool_calls with
  | [] => Returned panels
  | tool_call :: rest =>
      content ← tool_call_content content tool_call;
      format_tool_calls timestamp content
        (panels ++ [step_panel timestamp content]) rest
  end.

Definition format_step (step : RunStep) : Outcome Group :=
  let timestamp := strftime "%l:%M:%S %p" (created_at step) in
  let content :=
    "Assistant is performing an action: " +:+ step_type step +:+ " - Status:"
    +:+ " " +:+ status_str (status step) in
  match step_details step with
  | ToolCallsStepDetails tool_calls =>
      panels ← format_tool_calls timestamp content [] tool_calls;
      mret {| renderables := panels |}
  | MessageCreationStepDetails _ =>
      mret {| renderables := [] |}
  end.

(** [tempfile.NamedTemporaryFile(delete=False, mode="wb", suffix=suffix)]
    followed by one [write]: a new file in the temp directory whose name is
    ["tmp"], a fresh random part, and the suffix. *)
Definition write_named_temporary_file (suffix data : string) : IO string :=
  fun w =>
    let path :=
      gettempdir +:+ "/" +:+ "tmp" +:+ candidate_name (names_used w) +:+ suffix in
    (Returned path,
     {| files := (path, data) :: files w; names_used := S (names_used w) |}).

Definition download_temp_file (file_id : string) (suffix : option string)
  : IO string :=
  file_content ← lift (retrieve_content file_id);
  temp_file_path ← write_named_temporary_file (fstr_opt suffix) file_content;
  mret temp_file_path.

(** [role_colors] *)
Definition role_colors : gmap string string :=
  <["user" := "green"]> (<["assistant" := "blue"]> ∅).

(** [d.get(key, default)] *)
Definition dict_get (d : gmap string string) (key dflt : string) : string :=
  default dflt (d !! key).

(** [for item in message.content: ...], threading the variable [content]. *)
Fixpoint message_items (content : string) (items : list MessageContent)
  : IO string :=
  match items with
  | [] => mret content
  | item :: rest =>
      content ←
        match item with
        | MessageContentText value => mret (content +:+ value +:+ NL +:+ NL)
        | MessageContentImageFile file_id =>
            local_file_path ← download_temp_file file_id (Some ".png");
            let file_url := "file://" +:+ local_file_path in
            mret (content +:+ "[bold]Attachment[/bold]:"
                  +:+ " [blue][link=" +:+ file_url +:+ "]" +:+ local_file_path
                  +:+ "[/link][/blue]" +:+ NL +:+ NL)
        end;
      message_items content rest
  end.

(** [for file_id in message.file_ids: ...] *)
Definition attached_files (content : string) (ids : list string) : string :=
  fold_left (fun content file_id =>
               content +:+ "Attached file: " +:+ file_id +:+ NL) ids content.

Definition format_message (message : Message) : IO Panel :=
  let color := dict_get role_colors (role message) "red" in
  let timestamp :=
    lstrip_char "0" (strftime "%I:%M:%S %p" (created_at message)) in
  content ← message_items EmptyString (content message);
  let content := attached_files content (file_ids message) in
  mret {| renderable := {| markup := cleandoc content |};
          title := "[bold]" +:+ capitalize (role message) +:+ "[/]";
          subtitle := "[italic]" +:+ timestamp +:+ "[/]";
          title_align := "left";
          subtitle_align := "right";
          border_style := color;
          box := ROUNDED;
          width := 100%Z;
          expand := true;
          padding := (1%Z, 2%Z) |}.

End Formatting.

(** *** sorted *)

(** Put [x] in front of the first element whose key is not smaller. *)
Fixpoint insert_by {A : Type} (key : A -> Z) (x : A) (l : list A) : list A :=
  match l with
  | [] => [x]
  | y :: rest =>
      if (key x <=? key y)%Z then x :: l else y :: insert_by key x rest
  end.

(** [sorted(l, key=key)]: ascending in the key, elements with equal keys in
    their original order. *)
Definition sorted {A : Type} (l : list A) (key : A -> Z) : list A :=
  foldr (insert_by key) [] l.

(** [x is not None] *)
Definition is_not_None {A : Type} (x : option A) : bool :=
  match x with
  | None => false
  | Some _ => true
  end.

Section Merging.
Context `{E : Externals}.

(** The elements of the two comprehensions: a reference to the formatted
    object, which is never [None], and the timestamp. *)
Definition message_pair (m : Message) : IO (option Renderable * Z) :=
  p ← format_message m; mret (Some (OfPanel p), created_at m).

Definition step_pair (s : RunStep) : IO (option Renderable * Z) :=
  g ← lift (format_step s); mret (Some (OfGroup g), created_at s).

Definition format_run (run : Run) : IO (list (option Renderable)) :=
  of_messages ← for_each message_pair (messages run);
  of_steps ← for_each step_pair (steps run);
  let sorted_objects := sorted (of_messages ++ of_steps) snd in
  mret (map fst (List.filter (fun x => is_not_None (fst x)) sorted_objects)).

End Merging.

(** ** The console *)

(** What [console.print] is given: a panel, the group of a step, or the
    group [pprint_run] builds from the list [format_run] returns. *)
Inductive Printable : Type :=
  | PrintPanel (p : Panel)
  | PrintGroup (g : Group)
  | PrintGroupOf (objects : list (option Renderable)).

(** The world together with what has been printed so far, in order. *)
Record Screen : Type := mkScreen {
  world : World;
  printed : list Printable
}.

Definition Print (A : Type) : Type := Screen -> Outcome A * Screen.

Global Instance Print_ret : MRet Print := fun A a s => (Returned a, s).
Global Instance Print_bind : MBind Print := fun A B f m s =>
  match m s with
  | (Returned a, s') => f a s'
  | (Raised e, s') => (Raised e, s')
  end.

(** Run a computation that prints nothing. *)
Definition run_io {A : Type} (m : IO A) : Print A := fun s =>
  match m (world s) with
  | (o, w') => (o, {| world := w'; printed := printed s |})
  end.

(** [Console().print(x)] *)
Definition console_print (x : Printable) : Print unit := fun s =>
  (Returned tt, {| world := world s; printed := printed s ++ [x] |}).

(** [bool(group)]: [Group] defines neither [__bool__] nor [__len__], so
    every group is true, the empty one too. *)
Definition truthy_Group (g : Group) : bool := true.

Section Printing.
Context `{E : Externals}.

Definition pprint_run_step (step : RunStep) : Print unit :=
  panel ← run_io (lift (format_step step));
  if negb (truthy_Group panel) then mret tt
  else console_print (PrintGroup panel).

Definition pprint_message (message : Message) : Print unit :=
  panel ← run_io (format_message message);
  console_print (PrintPanel panel).

Fixpoint pprint_messages (messages : list Message) : Print unit :=
  match messages with
  | [] => mret tt
  | message :: rest => _ ← pprint_message message; pprint_messages rest
  end.

Definition pprint_run (run : Run) : Print unit :=
  panels ← run_io (format_run run);
  console_print (PrintGroupOf panels).

End Printing.

(** ** The texts the templates produce

    What the three templates look like once [cleandoc] and [format] have
    run, written as lists of lines; the properties below relate the
    formatter to them. *)

Definition result_section (result : string) : string :=
  join NL ["Result:"; ""; "```python"; result; "```"].

Definition code_interpreter_text (input footer : string) : string :=
  join NL ["Assistant is running the code interpreter..."; "";
           "```python"; input; "```"; ""; footer].

Definition function_text (function args footer : string) : string :=
  join NL ["Assistant is using the `" +:+ function +:+ "` tool with arguments:";
           ""; "```python"; args; "```"; ""; footer].

(** The same texts without a footer, once the final [cleandoc] has dropped
    the empty lines at the end. *)
Definition code_interpreter_body (input : string) : string :=
  join NL ["Assistant is running the code interpreter..."; "";
           "```python"; input; "```"].

Section Expected.
Context `{E : Externals}.

(** The parsers fail at [s] only the way they document: the strict parse
    with [JSONDecodeError], the lenient parse with some [Exception]. *)
Definition parsers_in_contract (s : string) : Prop :=
  (forall e, json_loads s = Raised e -> is_JSONDecodeError e = true) /\
  (forall e, json_parser_parse s = Raised e -> is_Exception e = true).

(** The first output of a code-interpreter call, if there is one, is a
    logs output. *)
Definition first_output_has_logs (code_interpreter : CodeInterpreter) : Prop :=
  match outputs code_interpreter with
  | CodeInterpreterOutputImage _ :: _ => False
  | _ => True
  end.

(** What the loop needs of an entry to get past it: of a function call,
    parsers that fail only as documented on its arguments; of a
    code-interpreter call, no image as first output. *)
Definition tool_call_in_contract (tool_call : ToolCall) : Prop :=
  match tool_call with
  | CodeInterpreterToolCall code_interpreter =>
      first_output_has_logs code_interpreter
  | FunctionToolCall function => parsers_in_contract (arguments function)
  | RetrievalToolCall => True
  end.

(** Strict parse, else lenient parse, else the raw string. *)
Definition decoded (s : string) : pyobj :=
  match json_loads s with
  | Returned a => a
  | Raised _ =>
      match json_parser_parse s with
      | Returned a => a
      | Raised _ => PyStr s
      end
  end.

(** The text an entry leaves in the variable [content], when the loop gets
    past the entry. *)
Definition content_after (content : string) (tool_call : ToolCall) : string :=
  match tool_call with
  | CodeInterpreterToolCall code_interpreter =>
      code_interpreter_text (input code_interpreter)
        match outputs code_interpreter with
        | CodeInterpreterOutputLogs text :: _ => result_section text
        | _ => ""
        end
  | FunctionToolCall function =>
      function_text (name function) (str (decoded (arguments function)))
        (if truthy_opt (output function)
         then result_section (fstr_opt (output function))
         else "")
  | RetrievalToolCall => content
  end.

(** The value of [content] after each entry of the loop. *)
Fixpoint contents_after (content : string) (tool_calls : list ToolCall)
  : list string :=
  match tool_calls with
  | [] => []
  | tool_call :: rest =>
      let content := content_after content tool_call in
      content :: contents_after content rest
  end.

(** The text [format_step] starts from. *)
Definition default_content (step : RunStep) : string :=
  "Assistant is performing an action: " +:+ step_type step +:+ " - Status: "
  +:+ status_str (status step).

(** The remote file can be fetched. *)
Definition downloadable (file_id : string) : Prop :=
  exists data, retrieve_content file_id = Returned data.

(** The file ids of the image segments, in order. *)
Fixpoint image_file_ids (items : list MessageContent) : list string :=
  match items with
  | [] => []
  | MessageContentText _ :: rest => image_file_ids rest
  | MessageContentImageFile file_id :: rest => file_id :: image_file_ids rest
  end.

End Expected.

Section ExpectedMore.
Context `{E : Externals}.

(** The header line of a function-call panel. *)
Definition function_header (function : string) : string :=
  "Assistant is using the `" +:+ function +:+ "` tool with arguments:".

(** The images of a message can all be fetched. *)
Definition images_downloadable (message : Message) : Prop :=
  Forall downloadable (image_file_ids (content message)).

(** Some image of a message cannot be fetched. *)
Definition image_fails (message : Message) : Prop :=
  exists file_id e,
    In (MessageContentImageFile file_id) (content message) /\
    retrieve_content file_id = Raised e.

(** The loop gets past every entry of the step. *)
Definition step_in_contract (step : RunStep) : Prop :=
  match step_details step with
  | ToolCallsStepDetails tool_calls => Forall tool_call_in_contract tool_calls
  | MessageCreationStepDetails _ => True
  end.

End ExpectedMore.

(** ** A small environment to run the module in *)

Definition demo_json_loads (s : string) : Outcome pyobj :=
  if String.eqb s "{}" then Returned (PyDict [])
  else if String.eqb s "[1]" then Returned (PyList [PyInt 1])
  else Raised JSONDecodeError.

Definition demo_json_parser_parse (s : string) : Outcome pyobj :=
  if String.eqb s "[1" then Returned (PyList [PyInt 1])
  else Raised JSONDecodeError.

Definition demo_repr (o : pyobj) : string :=
  match o with
  | PyDict [] => "{}"
  | PyList [PyInt 1] => "[1]"
  | _ => "..."
  end.

Definition demo_retrieve_content (file_id : string) : Outcome string :=
  if String.eqb file_id "file-1" then Returned "PNG" else Raised APIError.

(** [n] times the letter x. *)
Fixpoint demo_candidate_name (n : nat) : string :=
  match n with
  | O => "x"
  | S k => String "x" (demo_candidate_name k)
  end.

Definition demo : Externals := {|
  json_loads := demo_json_loads;
  json_parser_parse := demo_json_parser_parse;
  repr := demo_repr;
  strftime := fun _ _ => "09:05:00 AM";
  capitalize := fun s => s;
  retrieve_content := demo_retrieve_content;
  gettempdir := "/tmp";
  candidate_name := demo_candidate_name
|}.

Definition empty_world : World := {| files := []; names_used := 0 |}.

(** A step with two function calls: the first decoded by the lenient
    parse, the second by neither parse. *)
Definition demo_function_1 : Function :=
  {| name := "f"; arguments := "[1"; output := Some "ok" |}.

Definition demo_function_2 : Function :=
  {| name := "g"; arguments := "zzz"; output := None |}.

Definition demo_step_functions : RunStep :=
  {| step_created_at := 5%Z; status := completed;
     step_details :=
       ToolCallsStepDetails
         [FunctionToolCall demo_function_1; FunctionToolCall demo_function_2] |}.

Definition demo_step_message_creation : RunStep :=
  {| step_created_at := 2%Z; status := completed;
     step_details := MessageCreationStepDetails "msg_1" |}.

(** A code-interpreter call without output, and a retrieval call. *)
Definition demo_code : CodeInterpreter :=
  {| input := "print(1)"; outputs := [] |}.

Definition demo_step_code : RunStep :=
  {| step_created_at := 7%Z; status := in_progress;
     step_details :=
       ToolCallsStepDetails [CodeInterpreterToolCall demo_code; RetrievalToolCall] |}.

(** A code-interpreter call whose source has a tab between two letters. *)
Definition demo_tab_source : string := String "a" (String TAB "b").

Definition demo_step_tab : RunStep :=
  {| step_created_at := 7%Z; status := completed;
     step_details :=
       ToolCallsStepDetails
         [CodeInterpreterToolCall {| input := demo_tab_source; outputs := [] |}] |}.

Definition demo_message_user : Message :=
  {| role := "user";
     content := [MessageContentText "hi"; MessageContentImageFile "file-1"];
     file_ids := ["a"; "b"];
     message_created_at := 3%Z |}.

(** A message whose image cannot be downloaded. *)
Definition demo_message_broken : Message :=
  {| role := "assistant";
     content := [MessageContentText "see"; MessageContentImageFile "file-2"];
     file_ids := [];
     message_created_at := 1%Z |}.

(** A run whose only step is a [message_creation] step. *)
Definition demo_run_message_creation : Run :=
  {| messages := []; steps := [demo_step_message_creation] |}.

(** Messages at the timestamps 3 and 1 and a step at the timestamp 2. *)
Definition demo_run_mixed : Run :=
  {| messages :=
       [{| role := "user"; content := [MessageContentText "third"];
           file_ids := []; message_created_at := 3%Z |};
        {| role := "assistant"; content := [MessageContentText "first"];
           file_ids := []; message_created_at := 1%Z |}];
     steps :=
       [{| step_created_at := 2%Z; status := completed;
           step_details := ToolCallsStepDetails [RetrievalToolCall] |}] |}.

(** The texts shown by one entry of the result of [format_run]. *)
Definition bodies (object : option Renderable) : list string :=
  match object with
  | None => []
  | Some (OfPanel p) => [markup (renderable p)]
  | Some (OfGroup g) => map (fun p => markup (renderable p)) (renderables g)
  end.

(** An environment whose strict parser gives up on four nested lists with
    a [RecursionError]. *)
Definition demo_shallow : Externals := {|
  json_loads := fun s =>
    if String.prefix "[[[[" s then Raised RecursionError else demo_json_loads s;
  json_parser_parse := demo_json_parser_parse;
  repr := demo_repr;
  strftime := fun _ _ => "09:05:00 AM";
  capitalize := fun s => s;
  retrieve_content := demo_retrieve_content;
  gettempdir := "/tmp";
  candidate_name := demo_candidate_name
|}.

Definition demo_function_deep : Function :=
  {| name := "h"; arguments := "[[[[1]]]]"; output := None |}.

Definition demo_step_deep : RunStep :=
  {| step_created_at := 9%Z; status := in_progress;
     step_details :=
       ToolCallsStepDetails
         [RetrievalToolCall; FunctionToolCall demo_function_deep] |}.

(** A step with exactly two function calls, the second with nested lists. *)
Definition demo_step_two_deep : RunStep :=
  {| step_created_at := 9%Z; status := in_progress;
     step_details :=
       ToolCallsStepDetails
         [FunctionToolCall demo_function_1;
          FunctionToolCall demo_function_deep] |}.

(** A code-interpreter call that drew a picture: its only output is an
    image. *)
Definition demo_code_image : CodeInterpreter :=
  {| input := "plot()"; outputs := [CodeInterpreterOutputImage "file-7"] |}.

Definition demo_step_image : RunStep :=
  {| step_created_at := 8%Z; status := completed;
     step_details :=
       ToolCallsStepDetails
         [RetrievalToolCall; CodeInterpreterToolCall demo_code_image] |}.

Definition demo_message_text : Message :=
  {| role := "assistant"; content := [MessageContentText "hello"];
     file_ids := ["file-9"]; message_created_at := 4%Z |}.

(** A run whose second message has an image that cannot be downloaded. *)
Definition demo_run_broken : Run :=
  {| messages := [demo_message_user; demo_message_broken]; steps := [] |}.

(** What [format_run] returns for [demo_run_mixed]. *)
Definition demo_objects_mixed : list (option Renderable) :=
  match fst (@format_run demo demo_run_mixed empty_world) with
  | Returned objects => objects
  | Raised _ => []
  end.

Definition empty_screen : Screen := {| world := empty_world; printed := [] |}.

(** * Properties *)

(** ** Strings *)

Lemma append_nil_r (s : string) : s +:+ "" = s.
Proof. induction s as [|c s IH]; simpl; [reflexivity | now rewrite IH]. Qed.

Lemma append_assoc (a b c : string) : (a +:+ b) +:+ c = a +:+ (b +:+ c).
Proof. induction a as [|x a IH]; simpl; [reflexivity | now rewrite IH]. Qed.

Lemma length_append (a b : string) :
  String.length (a +:+ b) = String.length a + String.length b.
Proof. induction a as [|x a IH]; simpl; [reflexivity | now rewrite IH]. Qed.

Lemma drop_chars_append (a b : string) :
  drop_chars (String.length a) (a +:+ b) = b.
Proof. induction a as [|x a IH]; simpl; [now destruct b | exact IH]. Qed.

Lemma endswith_append (a b : string) : endswith (a +:+ b) b = true.
Proof.
  unfold endswith. rewrite length_append.
  replace (String.length a + String.length b - String.length b)
    with (String.length a) by lia.
  rewrite drop_chars_append, String.eqb_refl. simpl.
  apply Nat.leb_le. lia.
Qed.

Lemma split_not_nil (sep : ascii) (s : string) : split sep s <> [].
Proof.
  destruct s as [|c s]; simpl; [discriminate |].
  destruct (Ascii.eqb c sep); [discriminate |].
  destruct (split sep s); discriminate.
Qed.

(** Splitting at a separator splits the list of lines. *)
Lemma split_append_sep (sep : ascii) (a b : string) :
  split sep (a +:+ String sep b) = split sep a ++ split sep b.
Proof.
  induction a as [|c a IH]; simpl.
  - now rewrite Ascii.eqb_refl.
  - destruct (Ascii.eqb c sep); [now rewrite IH |].
    rewrite IH. pose proof (split_not_nil sep a) as Hne.
    destruct (split sep a) as [|l ls]; [contradiction | reflexivity].
Qed.

Lemma join_cons_cons (sep l1 l2 : string) (ls : list string) :
  join sep (l1 :: l2 :: ls) = l1 +:+ sep +:+ join sep (l2 :: ls).
Proof. reflexivity. Qed.

Lemma join_app (sep : string) (xs ys : list string) :
  xs <> [] -> ys <> [] ->
  join sep (xs ++ ys) = join sep xs +:+ sep +:+ join sep ys.
Proof.
  intros Hx Hy. induction xs as [|x xs IH]; [contradiction |].
  destruct xs as [|x' xs].
  - destruct ys as [|y ys]; [contradiction | reflexivity].
  - change ((x :: x' :: xs) ++ ys) with (x :: x' :: (xs ++ ys)).
    rewrite !join_cons_cons.
    change (x' :: (xs ++ ys)) with ((x' :: xs) ++ ys).
    rewrite IH by discriminate. now rewrite !append_assoc.
Qed.

Lemma join_String (sep : string) (c : ascii) (l : string) (ls : list string) :
  join sep (String c l :: ls) = String c (join sep (l :: ls)).
Proof. destruct ls; reflexivity. Qed.

(** [split] and [join] are inverse on the text. *)
Lemma join_split (s : string) : join NL (split LF s) = s.
Proof.
  induction s as [|c s IH]; [reflexivity |]. simpl.
  pose proof (split_not_nil LF s) as Hne.
  destruct (split LF s) as [|l ls]; [contradiction |].
  destruct (Ascii.eqb_spec c LF) as [->|Hc].
  - rewrite join_cons_cons, IH. reflexivity.
  - now rewrite join_String, IH.
Qed.

(** A line feed restarts the column count of [expandtabs]. *)
Lemma expandtabs_from_append_LF (col : nat) (a b : string) :
  expandtabs_from col (a +:+ String LF b)
  = expandtabs_from col a +:+ String LF (expandtabs_from 0 b).
Proof.
  revert col. induction a as [|c a IH]; intros col; simpl.
  - reflexivity.
  - destruct (Ascii.eqb c TAB).
    + now rewrite IH, append_assoc.
    + destruct (Ascii.eqb c LF || Ascii.eqb c CR); now rewrite IH.
Qed.

Lemma expandtabs_append_LF (a b : string) :
  expandtabs (a +:+ String LF b) = expandtabs a +:+ String LF (expandtabs b).
Proof. apply expandtabs_from_append_LF. Qed.

(** Only tabs are touched. *)
Lemma expandtabs_from_no_tab (col : nat) (s : string) :
  contains (String TAB "") s = false -> expandtabs_from col s = s.
Proof.
  revert col. induction s as [|c s IH]; intros col H; [reflexivity |].
  simpl in H. apply orb_false_iff in H as [Hc Hs].
  simpl. destruct (Ascii.eqb_spec c TAB) as [->|Hne].
  - exfalso. destruct (ascii_dec TAB TAB); [|contradiction].
    destruct s; discriminate.
  - destruct (Ascii.eqb c LF || Ascii.eqb c CR); now rewrite IH.
Qed.

Lemma expandtabs_no_tab (s : string) :
  contains (String TAB "") s = false -> expandtabs s = s.
Proof. apply expandtabs_from_no_tab. Qed.

Lemma min_margin_zero (lines : list string) :
  min_margin (Some 0) lines = Some 0.
Proof.
  induction lines as [|l ls IH]; [reflexivity |]. simpl.
  destruct (indent_of l); exact IH.
Qed.

Lemma map_drop_chars_0 (lines : list string) : map (drop_chars 0) lines = lines.
Proof.
  induction lines as [|l ls IH]; [reflexivity |].
  cbn [map]. now rewrite IH.
Qed.

(** *** cleandoc on a text given as paragraphs *)

Lemma expandtabs_join (ps : list string) :
  expandtabs (join NL ps) = join NL (map expandtabs ps).
Proof.
  induction ps as [|p ps IH]; [reflexivity |].
  destruct ps as [|q ps]; [reflexivity |].
  change (map expandtabs (p :: q :: ps))
    with (expandtabs p :: map expandtabs (q :: ps)).
  cbn [map] in IH |- *. rewrite !join_cons_cons.
  unfold NL at 1 3. cbn [String.append].
  rewrite expandtabs_append_LF. now rewrite IH.
Qed.

Lemma split_join (ps : list string) :
  ps <> [] -> split LF (join NL ps) = List.concat (map (split LF) ps).
Proof.
  intros Hne. induction ps as [|p ps IH]; [contradiction |].
  destruct ps as [|q ps].
  - simpl. now rewrite app_nil_r.
  - rewrite join_cons_cons. unfold NL at 1. cbn [String.append].
    rewrite split_append_sep, IH by discriminate. reflexivity.
Qed.

Lemma concat_split_not_nil (ps : list string) :
  ps <> [] -> List.concat (map (split LF) ps) <> [].
Proof.
  destruct ps as [|p ps]; [contradiction |]. intros _. simpl.
  pose proof (split_not_nil LF p). destruct (split LF p); [contradiction | discriminate].
Qed.

Lemma join_concat_split (ps : list string) :
  ps <> [] -> join NL (List.concat (map (split LF) ps)) = join NL ps.
Proof.
  intros Hne. induction ps as [|p ps IH]; [contradiction |].
  destruct ps as [|q ps].
  - simpl. rewrite app_nil_r. apply join_split.
  - change (map (split LF) (p :: q :: ps))
      with (split LF p :: map (split LF) (q :: ps)).
    cbn [List.concat]. rewrite join_app.
    + rewrite join_split, IH by discriminate. reflexivity.
    + apply split_not_nil.
    + apply concat_split_not_nil. discriminate.
Qed.

(** The lines [cleandoc] works on, for a text given as paragraphs. *)
Lemma lines_of_join (ps : list string) :
  ps <> [] ->
  split LF (expandtabs (join NL ps))
  = List.concat (map (split LF) (map expandtabs ps)).
Proof.
  intros Hne. rewrite expandtabs_join. apply split_join.
  destruct ps; [contradiction | discriminate].
Qed.

(** When the first line starts the text and some later line starts at the
    margin, only the empty lines at the end are removed. *)
Lemma cleandoc_lines_flush (first : string) (rest : list string) :
  lstrip first = first -> is_empty first = false ->
  min_margin None rest = Some 0 ->
  cleandoc_lines (first :: rest) = pop_trailing (first :: rest).
Proof.
  intros Hstrip Hfirst Hmargin. unfold cleandoc_lines.
  cbn [tl]. rewrite Hmargin, Hstrip, map_drop_chars_0.
  cbn [pop_trailing].
  destruct (pop_trailing rest); rewrite ?Hfirst; cbn [pop_leading];
    now rewrite Hfirst.
Qed.

(** ** The templates *)

Lemma result_template_clean :
  cleandoc RESULT_TEMPLATE
  = "Result:

```python
{result}
```".
Proof. vm_compute. reflexivity. Qed.

Lemma code_interpreter_template_clean :
  cleandoc CODE_INTERPRETER_TEMPLATE
  = "Assistant is running the code interpreter...

```python
{input}
```

{footer}".
Proof. vm_compute. reflexivity. Qed.

Lemma function_template_clean :
  cleandoc FUNCTION_TEMPLATE
  = "Assistant is using the `{function}` tool with arguments:

```python
{args}
```

{footer}".
Proof. vm_compute. reflexivity. Qed.

Ltac normalize_text :=
  lazy -[String.append]; cbn [String.append];
  repeat (rewrite append_assoc; cbn [String.append]);
  rewrite ?append_nil_r.

Lemma format_result_template (result : string) :
  format (cleandoc RESULT_TEMPLATE) [("result", result)]
  = Returned (result_section result).
Proof. rewrite result_template_clean. normalize_text. reflexivity. Qed.

Lemma format_code_interpreter_template (input footer : string) :
  format (cleandoc CODE_INTERPRETER_TEMPLATE)
    [("input", input); ("footer", footer)]
  = Returned (code_interpreter_text input footer).
Proof. rewrite code_interpreter_template_clean. normalize_text. reflexivity. Qed.

Lemma format_function_template (function args footer : string) :
  format (cleandoc FUNCTION_TEMPLATE)
    [("function", function); ("args", args); ("footer", footer)]
  = Returned (function_text function args footer).
Proof. rewrite function_template_clean. normalize_text. reflexivity. Qed.

Lemma pop_trailing_app (l1 l2 : list string) :
  pop_trailing l2 <> [] -> pop_trailing (l1 ++ l2) = l1 ++ pop_trailing l2.
Proof.
  intros Hne. induction l1 as [|x xs IH]; [reflexivity |].
  cbn [app pop_trailing]. rewrite IH.
  destruct (xs ++ pop_trailing l2) eqn:Heq; [| reflexivity].
  apply app_eq_nil in Heq as [_ Heq]. contradiction.
Qed.

Lemma pop_trailing_app_not_nil (l1 l2 : list string) :
  pop_trailing l2 <> [] -> pop_trailing (l1 ++ l2) <> [].
Proof.
  intros Hne. rewrite pop_trailing_app by assumption.
  intros Heq. apply app_eq_nil in Heq as [_ Heq]. contradiction.
Qed.

(** ** The body of a code-interpreter panel *)

Ltac literal_lines :=
  cbn [map List.concat];
  change (split LF (expandtabs "Assistant is running the code interpreter..."))
    with ["Assistant is running the code interpreter..."];
  change (split LF (expandtabs "")) with [""];
  change (split LF (expandtabs "```python")) with ["```python"];
  change (split LF (expandtabs "```")) with ["```"];
  change (split LF (expandtabs "Result:")) with ["Result:"];
  cbn [app].

Lemma cleandoc_code_interpreter_no_footer (input : string) :
  cleandoc (code_interpreter_text input "")
  = code_interpreter_body (expandtabs input).
Proof.
  unfold cleandoc, code_interpreter_text.
  rewrite lines_of_join by discriminate. literal_lines.
  rewrite cleandoc_lines_flush;
    [| reflexivity | reflexivity | apply min_margin_zero].
  match goal with
  | |- context [pop_trailing (?a :: ?b :: ?c :: ?X ++ ?t)] =>
      change (a :: b :: c :: X ++ t) with ([a; b; c] ++ X ++ t)
  end.
  rewrite !pop_trailing_app;
    [| discriminate | apply pop_trailing_app_not_nil; discriminate].
  cbn [pop_trailing is_empty app].
  unfold code_interpreter_body.
  rewrite <- (join_concat_split [_; _; _; expandtabs input; _]) by discriminate.
  reflexivity.
Qed.

Lemma cleandoc_code_interpreter_result (input result : string) :
  cleandoc (code_interpreter_text input (result_section result))
  = code_interpreter_text (expandtabs input) (result_section (expandtabs result)).
Proof.
  change (code_interpreter_text input (result_section result))
    with (join NL ["Assistant is running the code interpreter..."; "";
                   "```python"; input; "```"; "";
                   "Result:"; ""; "```python"; result; "```"]).
  change (code_interpreter_text (expandtabs input)
            (result_section (expandtabs result)))
    with (join NL ["Assistant is running the code interpreter..."; "";
                   "```python"; expandtabs input; "```"; "";
                   "Result:"; ""; "```python"; expandtabs result; "```"]).
  unfold cleandoc.
  rewrite lines_of_join by discriminate. literal_lines.
  rewrite cleandoc_lines_flush;
    [| reflexivity | reflexivity | apply min_margin_zero].
  match goal with
  | |- context [pop_trailing (?a :: ?b :: ?c :: ?X ++ ?d :: ?e :: ?f :: ?g :: ?h :: ?Y ++ ?t)] =>
      change (a :: b :: c :: X ++ d :: e :: f :: g :: h :: Y ++ t)
        with ([a; b; c] ++ X ++ [d; e; f; g; h] ++ Y ++ t)
  end.
  rewrite !pop_trailing_app;
    [| discriminate | repeat (apply pop_trailing_app_not_nil); discriminate ..].
  cbn [pop_trailing is_empty app].
  rewrite <- (join_concat_split
                [_; _; _; expandtabs input; _; _; _; _; _; expandtabs result; _])
    by discriminate.
  reflexivity.
Qed.

(** ** The argument decoder *)

Section Decoder.
Context `{E : Externals}.

Lemma decode_arguments_in_contract (s : string) :
  parsers_in_contract s -> decode_arguments s = Returned (decoded s).
Proof.
  intros [Hstrict Hlenient]. unfold decode_arguments, decoded, try_except.
  destruct (json_loads s) as [a|e]; [reflexivity |].
  rewrite (Hstrict e eq_refl).
  destruct (json_parser_parse s) as [a|e']; [reflexivity |].
  now rewrite (Hlenient e' eq_refl).
Qed.

(** C2. A string that the strict parse accepts decodes to exactly what
    the strict parse returns. *)
Theorem decode_arguments_valid_json (s : string) (v : pyobj) :
  json_loads s = Returned v -> decode_arguments s = Returned v.
Proof.
  intros Hv. unfold decode_arguments, try_except. now rewrite Hv.
Qed.

(** C3, as the code has it. On a string where the strict parse raises
    nothing but [JSONDecodeError] and the lenient parse nothing outside
    [Exception], the decoder returns a value and raises nothing: the
    strict result if there is one, else the lenient result if there is
    one, else the string itself. *)
Theorem decode_arguments_strict_lenient_raw (s : string) :
  parsers_in_contract s ->
  decode_arguments s =
  Returned match json_loads s with
           | Returned a => a
           | Raised _ =>
               match json_parser_parse s with
               | Returned a => a
               | Raised _ => PyStr s
               end
           end.
Proof. apply decode_arguments_in_contract. Qed.

End Decoder.

Lemma demo_parsers_in_contract (s : string) : @parsers_in_contract demo s.
Proof.
  split; intros e; cbn [json_loads json_parser_parse demo];
    unfold demo_json_loads, demo_json_parser_parse;
    repeat (destruct (String.eqb _ _); [discriminate |]);
    intros H; injection H as <-; reflexivity.
Qed.

Lemma decode_arguments_valid_json_witness :
  @json_loads demo "[1]" = Returned (PyList [PyInt 1]) /\
  @decode_arguments demo "[1]" = Returned (PyList [PyInt 1]).
Proof.
  split; [reflexivity |].
  apply (@decode_arguments_valid_json demo "[1]" (PyList [PyInt 1])).
  reflexivity.
Defined.

Lemma decode_arguments_strict_lenient_raw_witness :
  @parsers_in_contract demo "not json at all {{{" /\
  @decode_arguments demo "not json at all {{{"
  = Returned (PyStr "not json at all {{{").
Proof.
  split; [apply demo_parsers_in_contract |].
  apply (@decode_arguments_strict_lenient_raw demo "not json at all {{{").
  apply demo_parsers_in_contract.
Defined.

(** C3 does not hold for every string: the handler around the strict
    parse names [json.JSONDecodeError] only, so the [RecursionError] of a
    strict parser that gives up on nested lists leaves the decoder. *)
Lemma decode_arguments_recursion_error_escapes :
  @json_loads demo_shallow "[[[[1]]]]" = Raised RecursionError /\
  @decode_arguments demo_shallow "[[[[1]]]]" = Raised RecursionError.
Proof. split; reflexivity. Qed.

(** ** The step formatter *)

Section StepFormatter.
Context `{E : Externals}.

Lemma mbind_Returned {A B : Type} (a : A) (f : A -> Outcome B) :
  (Returned a ≫= f) = f a.
Proof. reflexivity. Qed.

Lemma tool_call_content_in_contract (content : string) (tool_call : ToolCall) :
  tool_call_in_contract tool_call ->
  tool_call_content content tool_call
  = Returned (content_after content tool_call).
Proof.
  destruct tool_call as [ci | f |]; intros Hc;
    cbn [tool_call_content content_after].
  - cbn [tool_call_in_contract] in Hc. unfold first_output_has_logs in Hc.
    destruct (outputs ci) as [|[text | image] rest]; [| | contradiction].
    + rewrite mbind_Returned. apply format_code_interpreter_template.
    + cbn [logs]. rewrite mbind_Returned.
      rewrite format_result_template, mbind_Returned.
      apply format_code_interpreter_template.
  - cbn [tool_call_in_contract] in Hc.
    rewrite (decode_arguments_in_contract _ Hc), mbind_Returned.
    destruct (truthy_opt (output f)).
    + rewrite format_result_template, mbind_Returned.
      apply format_function_template.
    + rewrite mbind_Returned. apply format_function_template.
  - reflexivity.
Qed.

Lemma format_tool_calls_in_contract (timestamp content : string)
    (panels : list Panel) (tool_calls : list ToolCall) :
  Forall tool_call_in_contract tool_calls ->
  format_tool_calls timestamp content panels tool_calls
  = Returned (panels ++ (step_panel timestamp
                         <$> contents_after content tool_calls)).
Proof.
  intros Hall. revert content panels.
  induction Hall as [|tc rest Htc _ IH]; intros content panels.
  - cbn [format_tool_calls contents_after]. now rewrite fmap_nil, app_nil_r.
  - cbn [format_tool_calls contents_after]. rewrite fmap_cons.
    rewrite (tool_call_content_in_contract content tc Htc), mbind_Returned.
    rewrite IH, <- app_assoc. reflexivity.
Qed.

(** One panel per entry, in order, each made from the text that entry
    leaves in [content]. *)
Lemma format_step_tool_calls (step : RunStep) (tool_calls : list ToolCall) :
  step_details step = ToolCallsStepDetails tool_calls ->
  Forall tool_call_in_contract tool_calls ->
  format_step step
  = Returned {| renderables :=
                  step_panel (strftime "%l:%M:%S %p" (created_at step))
                  <$> contents_after (default_content step) tool_calls |}.
Proof.
  intros Hd Hall. unfold format_step. rewrite Hd.
  change ("Assistant is performing an action: " +:+ step_type step
          +:+ " - Status:" +:+ " " +:+ status_str (status step))
    with (default_content step).
  rewrite (format_tool_calls_in_contract _ _ [] _ Hall). reflexivity.
Qed.

Lemma contents_after_length (content : string) (tool_calls : list ToolCall) :
  length (contents_after content tool_calls) = length tool_calls.
Proof.
  revert content. induction tool_calls as [|tc rest IH]; intros content;
    cbn [contents_after length]; [reflexivity | now rewrite IH].
Qed.

(** The text an entry leaves is made from the entry and from the text
    left by the entry before it (the default text for the first entry). *)
Lemma contents_after_lookup (content : string) (tool_calls : list ToolCall)
    (i : nat) (tool_call : ToolCall) :
  tool_calls !! i = Some tool_call ->
  exists before,
    contents_after content tool_calls !! i
    = Some (content_after before tool_call) /\
    match i with
    | 0 => before = content
    | S j => contents_after content tool_calls !! j = Some before
    end.
Proof.
  revert content i.
  induction tool_calls as [|tc rest IH]; intros content i Hi; [discriminate |].
  destruct i as [|i].
  - injection Hi as ->. exists content. split; reflexivity.
  - change ((tc :: rest) !! S i) with (rest !! i) in Hi.
    destruct (IH (content_after content tc) i Hi) as (before & H1 & H2).
    exists before. split; [exact H1 |].
    destruct i as [|i]; [now subst | exact H2].
Qed.

Lemma default_content_clean (step : RunStep) :
  cleandoc (default_content step) = default_content step.
Proof.
  unfold default_content, step_type.
  destruct (step_details step); destruct (status step); vm_compute; reflexivity.
Qed.

(** C5. A step of kind [message_creation] gives the empty sequence of
    panels. *)
Theorem format_step_message_creation (step : RunStep) :
  step_type step = "message_creation" ->
  format_step step = Returned {| renderables := [] |}.
Proof.
  unfold step_type, format_step.
  destruct (step_details step); [discriminate | reflexivity].
Qed.

(** C4, as the code has it. A [tool_calls] step with exactly two
    function-call entries, on whose arguments the strict parse raises
    nothing but [JSONDecodeError] and the lenient parse nothing outside
    [Exception], gives exactly two panels, both titled "System", the first
    made from the first entry and the second from the second. *)
Theorem format_step_two_function_calls (step : RunStep) (f1 f2 : Function) :
  step_details step
  = ToolCallsStepDetails [FunctionToolCall f1; FunctionToolCall f2] ->
  parsers_in_contract (arguments f1) ->
  parsers_in_contract (arguments f2) ->
  exists p1 p2,
    format_step step = Returned {| renderables := [p1; p2] |} /\
    title p1 = "System" /\ title p2 = "System" /\
    markup (renderable p1)
    = cleandoc (content_after "" (FunctionToolCall f1)) /\
    markup (renderable p2)
    = cleandoc (content_after "" (FunctionToolCall f2)).
Proof.
  intros Hd H1 H2.
  eexists _, _. split.
  - rewrite (format_step_tool_calls step _ Hd).
    + reflexivity.
    + apply Forall_cons_2; [exact H1 |].
      apply Forall_cons_2; [exact H2 | apply Forall_nil_2].
  - repeat split; reflexivity.
Qed.

(** The panel at the place of an entry. *)
Lemma format_step_panel_at (step : RunStep) (tool_calls : list ToolCall)
    (i : nat) (tool_call : ToolCall) :
  step_details step = ToolCallsStepDetails tool_calls ->
  Forall tool_call_in_contract tool_calls ->
  tool_calls !! i = Some tool_call ->
  exists panels timestamp before,
    format_step step = Returned {| renderables := panels |} /\
    length panels = length tool_calls /\
    panels !! i = Some (step_panel timestamp (content_after before tool_call)) /\
    match i with
    | 0 => before = default_content step
    | S j => panels !! j = Some (step_panel timestamp before)
    end.
Proof.
  intros Hd Hall Hi.
  destruct (contents_after_lookup (default_content step) _ _ _ Hi)
    as (before & H1 & H2).
  eexists _, _, before. split; [apply (format_step_tool_calls _ _ Hd Hall) |].
  cbn [renderables]. split; [| split].
  - now rewrite length_fmap, contents_after_length.
  - now rewrite list_lookup_fmap, H1.
  - destruct i as [|j]; [exact H2 |]. now rewrite list_lookup_fmap, H2.
Qed.

(** C6, as the code has it. In a step whose loop gets past every entry,
    the panel of a code-interpreter call holds the header and the input
    source in a code block, every tab of the source expanded to spaces;
    with no captured output nothing follows the block; when the first
    output is a logs output, a "Result:" block with its text follows, its
    tabs expanded as well. *)
Theorem code_interpreter_panel_body (step : RunStep)
    (tool_calls : list ToolCall) (i : nat) (code_interpreter : CodeInterpreter) :
  step_details step = ToolCallsStepDetails tool_calls ->
  Forall tool_call_in_contract tool_calls ->
  tool_calls !! i = Some (CodeInterpreterToolCall code_interpreter) ->
  exists panels p,
    format_step step = Returned {| renderables := panels |} /\
    panels !! i = Some p /\
    (outputs code_interpreter = [] ->
     markup (renderable p)
     = code_interpreter_body (expandtabs (input code_interpreter))) /\
    (forall text rest,
       outputs code_interpreter = CodeInterpreterOutputLogs text :: rest ->
       markup (renderable p)
       = code_interpreter_text (expandtabs (input code_interpreter))
           (result_section (expandtabs text))).
Proof.
  intros Hd Hall Hi.
  destruct (format_step_panel_at _ _ _ _ Hd Hall Hi)
    as (panels & timestamp & before & Hret & _ & Hp & _).
  exists panels, (step_panel timestamp
                    (content_after before
                       (CodeInterpreterToolCall code_interpreter))).
  split; [exact Hret |]. split; [exact Hp |].
  cbn [step_panel renderable markup content_after]. split.
  - intros ->. apply cleandoc_code_interpreter_no_footer.
  - intros text rest ->. apply cleandoc_code_interpreter_result.
Qed.

(** C9. An entry that is neither a code-interpreter call nor a function
    call still gets its panel: with the default status text when it is
    the first entry, otherwise with the body of the panel before it. *)
Theorem other_tool_call_panel (step : RunStep) (tool_calls : list ToolCall)
    (i : nat) (tool_call : ToolCall) :
  step_details step = ToolCallsStepDetails tool_calls ->
  Forall tool_call_in_contract tool_calls ->
  tool_calls !! i = Some tool_call ->
  tool_call_type tool_call <> "code_interpreter" ->
  tool_call_type tool_call <> "function" ->
  exists panels p,
    format_step step = Returned {| renderables := panels |} /\
    length panels = length tool_calls /\
    panels !! i = Some p /\
    match i with
    | 0 =>
        markup (renderable p)
        = "Assistant is performing an action: tool_calls - Status: "
          +:+ status_str (status step)
    | S j =>
        exists q, panels !! j = Some q /\
                  markup (renderable p) = markup (renderable q)
    end.
Proof.
  intros Hd Hall Hi Hci Hfn.
  destruct tool_call as [ci | f |]; [now contradict Hci | now contradict Hfn |].
  destruct (format_step_panel_at _ _ _ _ Hd Hall Hi)
    as (panels & timestamp & before & Hret & Hlen & Hp & Hprev).
  exists panels, (step_panel timestamp before).
  split; [exact Hret |]. split; [exact Hlen |]. split; [exact Hp |].
  destruct i as [|j].
  - subst before. cbn [step_panel renderable markup].
    rewrite default_content_clean. unfold default_content, step_type.
    now rewrite Hd.
  - exists (step_panel timestamp before). split; [exact Hprev | reflexivity].
Qed.

End StepFormatter.

Lemma demo_tool_calls_in_contract (tool_calls : list ToolCall) :
  Forall (fun tc => forall ci, tc = CodeInterpreterToolCall ci ->
                               first_output_has_logs ci) tool_calls ->
  Forall (@tool_call_in_contract demo) tool_calls.
Proof.
  induction 1 as [|tc rest Htc _ IH]; [apply Forall_nil_2 |].
  apply Forall_cons_2; [| exact IH].
  destruct tc as [ci | f |];
    [exact (Htc ci eq_refl) | apply demo_parsers_in_contract | exact I].
Qed.

Ltac demo_outputs :=
  apply demo_tool_calls_in_contract;
  repeat first
    [ apply Forall_nil_2
    | apply Forall_cons_2; [intros ? [=]; subst; exact I |] ].

Lemma format_step_message_creation_witness :
  step_type demo_step_message_creation = "message_creation" /\
  @format_step demo demo_step_message_creation
  = Returned {| renderables := [] |}.
Proof.
  split; [reflexivity |].
  apply (@format_step_message_creation demo demo_step_message_creation).
  reflexivity.
Defined.

Lemma format_step_two_function_calls_witness :
  exists p1 p2,
    @format_step demo demo_step_functions
    = Returned {| renderables := [p1; p2] |} /\
    title p1 = "System" /\ title p2 = "System" /\
    markup (renderable p1)
    = cleandoc (@content_after demo "" (FunctionToolCall demo_function_1)) /\
    markup (renderable p2)
    = cleandoc (@content_after demo "" (FunctionToolCall demo_function_2)).
Proof.
  apply (@format_step_two_function_calls demo demo_step_functions
           demo_function_1 demo_function_2).
  - reflexivity.
  - apply demo_parsers_in_contract.
  - apply demo_parsers_in_contract.
Defined.

(** C4 does not hold for every such step: when the strict parse raises
    a [RecursionError] on the arguments of the second call, [format_step]
    raises it and returns no panel. *)
Lemma format_step_two_function_calls_raises :
  step_details demo_step_two_deep
  = ToolCallsStepDetails
      [FunctionToolCall demo_function_1; FunctionToolCall demo_function_deep] /\
  @format_step demo_shallow demo_step_two_deep = Raised RecursionError.
Proof. split; [reflexivity | vm_compute; reflexivity]. Qed.

Lemma code_interpreter_panel_body_witness :
  exists panels p,
    @format_step demo demo_step_code = Returned {| renderables := panels |} /\
    panels !! 0 = Some p /\
    markup (renderable p) = code_interpreter_body "print(1)".
Proof.
  destruct (@code_interpreter_panel_body demo demo_step_code
              [CodeInterpreterToolCall demo_code; RetrievalToolCall] 0 demo_code)
    as (panels & p & Hret & Hp & Hbody & _).
  - reflexivity.
  - demo_outputs.
  - reflexivity.
  - exists panels, p. split; [exact Hret |]. split; [exact Hp |].
    exact (Hbody eq_refl).
Defined.

(** C6 does not hold for a source with a tab: the tab is gone from the
    panel, so the body holds neither the source nor a code block around
    it. *)
Lemma code_interpreter_panel_body_loses_tabs :
  exists p,
    @format_step demo demo_step_tab = Returned {| renderables := [p] |} /\
    contains demo_tab_source (markup (renderable p)) = false /\
    markup (renderable p)
    = code_interpreter_body "a       b".
Proof.
  eexists. split; [vm_compute; reflexivity |].
  split; vm_compute; reflexivity.
Qed.

Lemma other_tool_call_panel_witness :
  exists panels p,
    @format_step demo demo_step_code = Returned {| renderables := panels |} /\
    length panels = 2 /\
    panels !! 1 = Some p /\
    exists q, panels !! 0 = Some q /\
              markup (renderable p) = markup (renderable q).
Proof.
  apply (@other_tool_call_panel demo demo_step_code
           [CodeInterpreterToolCall demo_code; RetrievalToolCall] 1
           RetrievalToolCall).
  - reflexivity.
  - demo_outputs.
  - reflexivity.
  - discriminate.
  - discriminate.
Defined.

(** ** The message formatter *)

Section MessageFormatter.
Context `{E : Externals}.

Lemma role_color (r : string) :
  dict_get role_colors r "red"
  = if String.eqb r "user" then "green"
    else if String.eqb r "assistant" then "blue" else "red".
Proof.
  unfold dict_get, role_colors.
  destruct (String.eqb_spec r "user") as [->|Huser].
  - now rewrite lookup_insert_eq.
  - rewrite lookup_insert_ne by congruence.
    destruct (String.eqb_spec r "assistant") as [->|Hassistant].
    + now rewrite lookup_insert_eq.
    + now rewrite lookup_insert_ne, lookup_empty by congruence.
Qed.

(** The path [tempfile] hands out in world [w] for a suffix. *)
Lemma download_temp_file_returns (file_id : string) (suffix : option string)
    (w : World) (data : string) :
  retrieve_content file_id = Returned data ->
  download_temp_file file_id suffix w
  = let path := gettempdir +:+ "/" +:+ "tmp"
                +:+ candidate_name (names_used w) +:+ fstr_opt suffix in
    (Returned path,
     {| files := (path, data) :: files w; names_used := S (names_used w) |}).
Proof.
  intros Hdata. unfold download_temp_file, mbind, IO_bind, lift.
  now rewrite Hdata.
Qed.

Lemma download_temp_file_raises (file_id : string) (suffix : option string)
    (w : World) (e : exception) :
  retrieve_content file_id = Raised e ->
  download_temp_file file_id suffix w = (Raised e, w).
Proof.
  intros He. unfold download_temp_file, mbind, IO_bind, lift.
  now rewrite He.
Qed.

(** C10. Called without a suffix, [download_temp_file] writes the
    downloaded bytes to a new temporary file whose name ends with the four
    characters "None". *)
Theorem download_temp_file_default_suffix (file_id : string) (w : World)
    (data : string) :
  retrieve_content file_id = Returned data ->
  exists path,
    download_temp_file file_id None w
    = (Returned path,
       {| files := (path, data) :: files w; names_used := S (names_used w) |})
    /\ endswith path "None" = true.
Proof.
  intros Hdata. eexists. split.
  - apply (download_temp_file_returns _ None _ _ Hdata).
  - cbn [fstr_opt]. rewrite <- !append_assoc. apply endswith_append.
Qed.

Lemma message_items_text (content value : string)
    (rest : list MessageContent) (w : World) :
  message_items content (MessageContentText value :: rest) w
  = message_items (content +:+ value +:+ NL +:+ NL) rest w.
Proof. reflexivity. Qed.

Lemma message_items_image_raises (content file_id : string)
    (rest : list MessageContent) (w : World) (e : exception) :
  retrieve_content file_id = Raised e ->
  message_items content (MessageContentImageFile file_id :: rest) w
  = (Raised e, w).
Proof.
  intros He. cbn [message_items]. unfold mbind at 1, IO_bind at 1.
  unfold mbind at 1, IO_bind at 1.
  now rewrite (download_temp_file_raises _ _ _ _ He).
Qed.

Lemma message_items_image_returns (content file_id : string)
    (rest : list MessageContent) (w : World) (data : string) :
  retrieve_content file_id = Returned data ->
  exists content' w',
    message_items content (MessageContentImageFile file_id :: rest) w
    = message_items content' rest w'.
Proof.
  intros Hdata. cbn [message_items]. unfold mbind at 1, IO_bind at 1.
  unfold mbind at 1, IO_bind at 1.
  rewrite (download_temp_file_returns _ _ _ _ Hdata). cbv zeta.
  eexists _, _. reflexivity.
Qed.

Lemma message_items_returns (content : string) (items : list MessageContent)
    (w : World) :
  Forall downloadable (image_file_ids items) ->
  exists content' w', message_items content items w = (Returned content', w').
Proof.
  revert content w. induction items as [|item rest IH]; intros content w Hall.
  - eexists _, _. reflexivity.
  - destruct item as [value | file_id].
    + rewrite message_items_text. apply IH. exact Hall.
    + cbn [image_file_ids] in Hall. apply Forall_cons in Hall as [[data Hdata] Hrest].
      destruct (message_items_image_returns content file_id rest w data Hdata)
        as (content' & w' & ->).
      apply IH. exact Hrest.
Qed.

Lemma message_items_raises (content : string) (items : list MessageContent)
    (w : World) (file_id : string) (e : exception) :
  In (MessageContentImageFile file_id) items ->
  retrieve_content file_id = Raised e ->
  exists file_id' e' w',
    In (MessageContentImageFile file_id') items /\
    retrieve_content file_id' = Raised e' /\
    message_items content items w = (Raised e', w').
Proof.
  revert content w. induction items as [|item rest IH]; intros content w Hin He.
  - contradiction.
  - destruct item as [value | first_id].
    + destruct Hin as [Heq | Hin]; [discriminate |].
      rewrite message_items_text.
      destruct (IH (content +:+ value +:+ NL +:+ NL) w Hin He)
        as (file_id' & e' & w' & Hin' & He' & Hrun).
      exists file_id', e', w'. split; [now right | split; [exact He' | exact Hrun]].
    + destruct (retrieve_content first_id) as [data | e0] eqn:Hfirst.
      * destruct (message_items_image_returns content first_id rest w data Hfirst)
          as (content' & w' & ->).
        destruct Hin as [Heq | Hin]; [injection Heq as ->; congruence |].
        destruct (IH content' w' Hin He) as (file_id' & e' & w'' & Hin' & He' & Hrun).
        exists file_id', e', w''.
        split; [now right | split; [exact He' | exact Hrun]].
      * exists first_id, e0, w.
        split; [now left | split; [exact Hfirst |]].
        now apply message_items_image_raises.
Qed.

(** C7. The panel of a message has a green border for the role "user",
    a blue one for "assistant" and a red one for every other role (a panel
    is returned whenever the images of the message can be fetched). *)
Theorem format_message_border_style (message : Message) (w : World) :
  Forall downloadable (image_file_ids (content message)) ->
  exists p w',
    format_message message w = (Returned p, w') /\
    border_style p
    = if String.eqb (role message) "user" then "green"
      else if String.eqb (role message) "assistant" then "blue"
      else "red".
Proof.
  intros Hall.
  destruct (message_items_returns "" (content message) w Hall)
    as (content' & w' & Hitems).
  unfold format_message, mbind, IO_bind. rewrite Hitems.
  eexists _, w'. split; [reflexivity |].
  cbn [border_style]. apply role_color.
Qed.

(** C8. When the download of an image of the message raises, the message
    formatter does not catch it: it returns no panel and the error of a
    failed download reaches the caller. *)
Theorem format_message_download_error (message : Message) (w : World)
    (file_id : string) (e : exception) :
  In (MessageContentImageFile file_id) (content message) ->
  retrieve_content file_id = Raised e ->
  exists file_id' e' w',
    In (MessageContentImageFile file_id') (content message) /\
    retrieve_content file_id' = Raised e' /\
    format_message message w = (Raised e', w').
Proof.
  intros Hin He.
  destruct (message_items_raises "" (content message) w file_id e Hin He)
    as (file_id' & e' & w' & Hin' & He' & Hitems).
  exists file_id', e', w'. split; [exact Hin' | split; [exact He' |]].
  unfold format_message, mbind, IO_bind. now rewrite Hitems.
Qed.

End MessageFormatter.

Lemma download_temp_file_default_suffix_witness :
  @retrieve_content demo "file-1" = Returned "PNG" /\
  exists path,
    @download_temp_file demo "file-1" None empty_world
    = (Returned path, {| files := [(path, "PNG")]; names_used := 1 |})
    /\ endswith path "None" = true.
Proof.
  split; [reflexivity |].
  apply (@download_temp_file_default_suffix demo "file-1" empty_world "PNG").
  reflexivity.
Defined.

Lemma format_message_border_style_witness :
  Forall (@downloadable demo) (image_file_ids (content demo_message_user)) /\
  exists p w',
    @format_message demo demo_message_user empty_world = (Returned p, w') /\
    border_style p = "green".
Proof.
  assert (Hall : Forall (@downloadable demo)
                   (image_file_ids (content demo_message_user))).
  { apply Forall_cons_2; [| apply Forall_nil_2]. exists "PNG". reflexivity. }
  split; [exact Hall |].
  exact (@format_message_border_style demo demo_message_user empty_world Hall).
Defined.

Lemma format_message_download_error_witness :
  In (MessageContentImageFile "file-2") (content demo_message_broken) /\
  @retrieve_content demo "file-2" = Raised APIError /\
  exists file_id' e' w',
    In (MessageContentImageFile file_id') (content demo_message_broken) /\
    @retrieve_content demo file_id' = Raised e' /\
    @format_message demo demo_message_broken empty_world = (Raised e', w').
Proof.
  assert (Hin : In (MessageContentImageFile "file-2")
                  (content demo_message_broken)).
  { right. left. reflexivity. }
  split; [exact Hin |]. split; [reflexivity |].
  apply (@format_message_download_error demo demo_message_broken empty_world
           "file-2" APIError Hin).
  reflexivity.
Defined.

(** ** The run merger *)

Lemma insert_by_Permutation {A : Type} (key : A -> Z) (x : A) (l : list A) :
  Permutation (insert_by key x l) (x :: l).
Proof.
  induction l as [|y rest IH]; cbn [insert_by]; [reflexivity |].
  destruct (key x <=? key y)%Z; [reflexivity |].
  now rewrite IH, perm_swap.
Qed.

Lemma sorted_Permutation {A : Type} (l : list A) (key : A -> Z) :
  Permutation (sorted l key) l.
Proof.
  unfold sorted. induction l as [|x rest IH]; cbn [foldr]; [reflexivity |].
  now rewrite insert_by_Permutation, IH.
Qed.

Lemma insert_by_sorted {A : Type} (key : A -> Z) (x : A) (l : list A) :
  StronglySorted (fun a b => (key a <= key b)%Z) l ->
  StronglySorted (fun a b => (key a <= key b)%Z) (insert_by key x l).
Proof.
  induction 1 as [|y rest Hrest IH Hy]; cbn [insert_by].
  - constructor; [constructor | constructor].
  - destruct (Z.leb_spec (key x) (key y)) as [Hle | Hgt].
    + constructor; [constructor; assumption |].
      constructor; [exact Hle |].
      eapply Forall_impl; [exact Hy |]. intros z Hz. cbn in Hz |- *. lia.
    + constructor; [exact IH |].
      rewrite insert_by_Permutation. constructor; [lia | exact Hy].
Qed.

(** [sorted] returns its argument in ascending order of the key. *)
Lemma sorted_ascending {A : Type} (l : list A) (key : A -> Z) :
  StronglySorted (fun a b => (key a <= key b)%Z) (sorted l key).
Proof.
  unfold sorted. induction l as [|x rest IH]; cbn [foldr]; [constructor |].
  now apply insert_by_sorted.
Qed.

Lemma filter_all {A : Type} (p : A -> bool) (l : list A) :
  Forall (fun x => p x = true) l -> List.filter p l = l.
Proof.
  induction 1 as [|x rest Hx _ IH]; cbn [List.filter]; [reflexivity |].
  now rewrite Hx, IH.
Qed.

Lemma for_each_Forall {A B : Type} (f : A -> IO B) (P : B -> Prop)
    (xs : list A) (w : World) (ys : list B) (w' : World) :
  (forall x w y w', f x w = (Returned y, w') -> P y) ->
  for_each f xs w = (Returned ys, w') ->
  Forall P ys /\ length ys = length xs.
Proof.
  intros Hf. revert w ys. induction xs as [|x rest IH]; intros w ys Hrun.
  - injection Hrun as <- _. split; [apply Forall_nil_2 | reflexivity].
  - cbn [for_each] in Hrun. unfold mbind at 1, IO_bind at 1 in Hrun.
    destruct (f x w) as [[y | e] w1] eqn:Hy; [| discriminate].
    unfold mbind at 1, IO_bind at 1 in Hrun.
    destruct (for_each f rest w1) as [[ys1 | e] w2] eqn:Hrest; [| discriminate].
    injection Hrun as <- ->.
    destruct (IH w1 ys1 Hrest) as [Hall Hlen].
    split; [apply Forall_cons_2; [exact (Hf _ _ _ _ Hy) | exact Hall] |].
    cbn [length]. now rewrite Hlen.
Qed.

Section RunMerger.
Context `{E : Externals}.

Lemma message_pair_not_None (m : Message) (w : World)
    (y : option Renderable * Z) (w' : World) :
  message_pair m w = (Returned y, w') -> is_not_None (fst y) = true.
Proof.
  unfold message_pair, mbind, IO_bind.
  destruct (format_message m w) as [[p | e] w1]; [| discriminate].
  intros H. injection H as <- _. reflexivity.
Qed.

Lemma step_pair_not_None (s : RunStep) (w : World)
    (y : option Renderable * Z) (w' : World) :
  step_pair s w = (Returned y, w') -> is_not_None (fst y) = true.
Proof.
  unfold step_pair, mbind, IO_bind, lift.
  destruct (format_step s) as [g | e]; [| discriminate].
  intros H. injection H as <- _. reflexivity.
Qed.

(** The filter of [format_run] removes nothing: every message and every
    step has its entry in the result. *)
Lemma format_run_keeps_every_object (run : Run) (w : World)
    (objects : list (option Renderable)) (w' : World) :
  format_run run w = (Returned objects, w') ->
  length objects = length (messages run) + length (steps run).
Proof.
  unfold format_run. unfold mbind at 1, IO_bind at 1.
  destruct (for_each message_pair (messages run) w)
    as [[of_messages | e] w1] eqn:Hm; [| discriminate].
  unfold mbind at 1, IO_bind at 1.
  destruct (for_each step_pair (steps run) w1)
    as [[of_steps | e] w2] eqn:Hs; [| discriminate].
  intros H. injection H as <- _.
  destruct (for_each_Forall _ _ _ _ _ _ message_pair_not_None Hm) as [Pm Lm].
  destruct (for_each_Forall _ _ _ _ _ _ step_pair_not_None Hs) as [Ps Ls].
  rewrite filter_all.
  - rewrite length_map, (Permutation_length (sorted_Permutation _ _)).
    rewrite length_app. now rewrite Lm, Ls.
  - rewrite sorted_Permutation. apply Forall_app. split; assumption.
Qed.

(** C1, where the code departs from it. A run whose only step is a
    [message_creation] step formats to a list of one entry, the empty
    group of that step: the step has no panel, yet it is not dropped. *)
Theorem format_run_keeps_empty_group (w : World) (t : Z) (st : Status)
    (message_id : string) :
  format_run
    {| messages := [];
       steps := [{| step_created_at := t; status := st;
                    step_details := MessageCreationStepDetails message_id |}] |}
    w
  = (Returned [Some (OfGroup {| renderables := [] |})], w).
Proof. reflexivity. Qed.

End RunMerger.

(** The example of the specification: messages at the timestamps 3 and 1
    and a step at the timestamp 2 come out in the order 1, 2, 3. *)
Example format_run_orders_by_timestamp :
  exists objects w',
    @format_run demo demo_run_mixed empty_world = (Returned objects, w') /\
    map bodies objects
    = [["first"];
       ["Assistant is performing an action: tool_calls - Status: completed"];
       ["third"]].
Proof. eexists _, _. split; vm_compute; reflexivity. Qed.

(** The same on the demo run: one step, of kind [message_creation], and
    one entry in the result. *)
Example format_run_demo_message_creation :
  @format_run demo demo_run_message_creation empty_world
  = (Returned [Some (OfGroup {| renderables := [] |})], empty_world).
Proof. reflexivity. Qed.

(** * Further properties *)

(** ** More on cleandoc *)

Lemma min_margin_flush (margin : option nat) (l1 l2 : list string)
    (line : string) :
  indent_of line = Some 0 -> min_margin margin (l1 ++ line :: l2) = Some 0.
Proof.
  intros Hline. revert margin.
  induction l1 as [|x xs IH]; intros margin; cbn [app min_margin].
  - rewrite Hline. destruct margin as [m|].
    + rewrite Nat.min_0_r. apply min_margin_zero.
    + apply min_margin_zero.
  - destruct (indent_of x); apply IH.
Qed.

Lemma pop_trailing_empties (k : nat) : pop_trailing (replicate k "") = [].
Proof. induction k as [|k IH]; cbn [replicate pop_trailing]; [reflexivity | now rewrite IH]. Qed.

Lemma pop_trailing_last (pre : list string) (last : string) (k : nat) :
  is_empty last = false ->
  pop_trailing (pre ++ last :: replicate k "") = pre ++ [last].
Proof.
  intros Hlast.
  assert (Hpop : pop_trailing (last :: replicate k "") = [last]).
  { cbn [pop_trailing]. now rewrite pop_trailing_empties, Hlast. }
  rewrite pop_trailing_app; rewrite Hpop; [reflexivity | discriminate].
Qed.

Lemma lines_of_empties (k : nat) :
  List.concat (map (split LF) (map expandtabs (replicate k "")))
  = replicate k "".
Proof.
  induction k as [|k IH]; [reflexivity |].
  cbn [replicate map List.concat]. now rewrite IH.
Qed.

(** A text that starts with a character that is not white space has a
    first line that starts with it. *)
Lemma split_expandtabs_flush (c : ascii) (t : string) :
  is_space c = false ->
  exists l ls, split LF (expandtabs (String c t)) = String c l :: ls.
Proof.
  intros Hc. unfold expandtabs. cbn [expandtabs_from].
  destruct (Ascii.eqb_spec c TAB) as [-> | _]; [discriminate |].
  destruct (Ascii.eqb_spec c LF) as [-> | Hlf]; [discriminate |].
  destruct (Ascii.eqb_spec c CR) as [-> | _]; [discriminate |].
  cbn [orb split]. destruct (Ascii.eqb_spec c LF) as [-> | _]; [contradiction |].
  pose proof (split_not_nil LF (expandtabs_from 1 t)) as Hne.
  destruct (split LF (expandtabs_from 1 t)) as [|l ls]; [contradiction |].
  now exists l, ls.
Qed.

(** On a text whose first character is not white space, that has a later
    paragraph [fence] standing at the margin and that ends with a non-empty
    line [last] followed by [k] empty lines, [cleandoc] expands the tabs
    and drops the empty lines at the end, nothing more. *)
Lemma cleandoc_flush_paragraphs (c : ascii) (t : string)
    (ps : list string) (fence : string) (qs : list string) (last : string)
    (k : nat) :
  is_space c = false ->
  split LF (expandtabs fence) = [fence] -> indent_of fence = Some 0 ->
  split LF (expandtabs last) = [last] -> is_empty last = false ->
  cleandoc (join NL (String c t :: ps ++ fence :: qs ++ last :: replicate k ""))
  = expandtabs (join NL (String c t :: ps ++ fence :: qs ++ [last])).
Proof.
  intros Hc Hfence Hindent Hlast Hne.
  destruct (split_expandtabs_flush c t Hc) as (l & ls & Hfirst).
  set (P := List.concat (map (split LF) (map expandtabs ps))).
  set (Q := List.concat (map (split LF) (map expandtabs qs))).
  assert (Hlines : forall tail,
    split LF (expandtabs tail) = [tail] -> forall extra,
    List.concat (map (split LF)
      (map expandtabs (String c t :: ps ++ fence :: qs ++ tail :: extra)))
    = String c l :: (ls ++ P ++ fence :: Q)
      ++ tail :: List.concat (map (split LF) (map expandtabs extra))).
  { intros tail Htail extra. cbn [map List.concat]. rewrite Hfirst.
    rewrite !map_app, concat_app. cbn [map List.concat]. rewrite Hfence.
    rewrite !map_app, concat_app. cbn [map List.concat]. rewrite Htail.
    fold P Q. cbn [app]. now rewrite <- !app_assoc. }
  unfold cleandoc. rewrite lines_of_join by discriminate.
  rewrite (Hlines last Hlast), lines_of_empties.
  rewrite cleandoc_lines_flush.
  - change (String c l :: (ls ++ P ++ fence :: Q) ++ last :: replicate k "")
      with ((String c l :: ls ++ P ++ fence :: Q) ++ last :: replicate k "").
    rewrite (pop_trailing_last _ _ _ Hne).
    rewrite expandtabs_join.
    rewrite <- (join_concat_split
                  (map expandtabs (String c t :: ps ++ fence :: qs ++ [last])))
      by discriminate.
    rewrite (Hlines last Hlast []). reflexivity.
  - cbn [lstrip]. now rewrite Hc.
  - reflexivity.
  - rewrite <- !app_assoc. cbn [app].
    rewrite (app_assoc ls P). apply min_margin_flush. exact Hindent.
Qed.

(** ** More on the step formatter *)

Section StepFormatterMore.
Context `{E : Externals}.

(** A [tool_calls] step whose loop gets past every entry (parsers that
    fail only as documented on the arguments of its function calls, no
    image as first output of its code-interpreter calls) gives one panel
    per entry, and all its panels carry the same title, the same time
    stamp, the same border and the same width. *)
Theorem format_step_one_panel_per_tool_call (step : RunStep)
    (tool_calls : list ToolCall) :
  step_details step = ToolCallsStepDetails tool_calls ->
  Forall tool_call_in_contract tool_calls ->
  exists panels,
    format_step step = Returned {| renderables := panels |} /\
    length panels = length tool_calls /\
    Forall (fun p =>
              title p = "System" /\
              subtitle p
              = "[italic]" +:+ strftime "%l:%M:%S %p" (created_at step) +:+ "[/]" /\
              border_style p = "gray74" /\
              width p = 100%Z) panels.
Proof.
  intros Hd Hall. eexists. split; [apply (format_step_tool_calls _ _ Hd Hall) |].
  split.
  - now rewrite length_fmap, contents_after_length.
  - apply Forall_fmap, Forall_true. intros content. cbn. repeat split.
Qed.

(** The body of the panel of a function call: the header with the name
    of the function, the decoded arguments in a code block and, when the
    call has a non-empty output, a "Result:" block with it; tabs expanded.
    With no output, or the empty string as output, there is no "Result:"
    block. *)
Theorem function_call_panel_body (step : RunStep) (tool_calls : list ToolCall)
    (i : nat) (function : Function) :
  step_details step = ToolCallsStepDetails tool_calls ->
  Forall tool_call_in_contract tool_calls ->
  tool_calls !! i = Some (FunctionToolCall function) ->
  exists panels p,
    format_step step = Returned {| renderables := panels |} /\
    panels !! i = Some p /\
    markup (renderable p)
    = expandtabs
        (join NL
           ([function_header (name function); ""; "```python";
             str (decoded (arguments function)); "```"]
            ++ match output function with
               | Some (String c o) =>
                   [""; "Result:"; ""; "```python"; String c o; "```"]
               | _ => []
               end)).
Proof.
  intros Hd Hall Hi.
  destruct (format_step_panel_at _ _ _ _ Hd Hall Hi)
    as (panels & timestamp & before & Hret & _ & Hp & _).
  exists panels, (step_panel timestamp
                    (content_after before (FunctionToolCall function))).
  split; [exact Hret |]. split; [exact Hp |].
  cbn [step_panel renderable markup content_after].
  set (args := str (decoded (arguments function))).
  set (t := "ssistant is using the `" +:+ name function
            +:+ "` tool with arguments:").
  destruct (output function) as [[|c o] |]; cbn [truthy_opt is_empty negb].
  - exact (cleandoc_flush_paragraphs "A" t [""] "```python" [args] "```" 2
             eq_refl eq_refl eq_refl eq_refl eq_refl).
  - exact (cleandoc_flush_paragraphs "A" t [""] "```python"
             [args; "```"; ""; "Result:"; ""; "```python"; String c o] "```" 0
             eq_refl eq_refl eq_refl eq_refl eq_refl).
  - exact (cleandoc_flush_paragraphs "A" t [""] "```python" [args] "```" 2
             eq_refl eq_refl eq_refl eq_refl eq_refl).
Qed.

Lemma format_tool_calls_app (timestamp content : string) (panels : list Panel)
    (before rest : list ToolCall) :
  Forall tool_call_in_contract before ->
  exists content' panels',
    format_tool_calls timestamp content panels (before ++ rest)
    = format_tool_calls timestamp content' panels' rest.
Proof.
  intros Hall. revert content panels.
  induction Hall as [|tc more Htc _ IH]; intros content panels.
  - exists content, panels. reflexivity.
  - cbn [app format_tool_calls].
    rewrite (tool_call_content_in_contract content tc Htc), mbind_Returned.
    apply IH.
Qed.

(** The strict parse is guarded by [except json.JSONDecodeError] only:
    an exception of another class raised by [json.loads] on the arguments
    of a function call leaves [format_step], and no panel is returned,
    those of the entries before included. *)
Theorem format_step_strict_parse_error_escapes (step : RunStep)
    (before after : list ToolCall) (function : Function) (e : exception) :
  step_details step
  = ToolCallsStepDetails (before ++ FunctionToolCall function :: after) ->
  Forall tool_call_in_contract before ->
  json_loads (arguments function) = Raised e ->
  is_JSONDecodeError e = false ->
  format_step step = Raised e.
Proof.
  intros Hd Hall Hraise Hclass. unfold format_step. rewrite Hd.
  match goal with
  | |- context [format_tool_calls ?ts ?c ?ps _] =>
      destruct (format_tool_calls_app ts c ps before
                  (FunctionToolCall function :: after) Hall)
        as (content' & panels' & ->)
  end.
  cbn [format_tool_calls tool_call_content].
  unfold decode_arguments, try_except. rewrite Hraise, Hclass. reflexivity.
Qed.

End StepFormatterMore.

(** ** More on the message formatter *)

Section MessageFormatterMore.
Context `{E : Externals}.

Lemma message_items_image (content file_id : string)
    (rest : list MessageContent) (w : World) (data : string) :
  retrieve_content file_id = Returned data ->
  message_items content (MessageContentImageFile file_id :: rest) w
  = let path := gettempdir +:+ "/" +:+ "tmp"
                +:+ candidate_name (names_used w) +:+ ".png" in
    message_items
      (content +:+ "[bold]Attachment[/bold]:"
       +:+ " [blue][link=" +:+ ("file://" +:+ path) +:+ "]" +:+ path
       +:+ "[/link][/blue]" +:+ NL +:+ NL)
      rest
      {| files := (path, data) :: files w; names_used := S (names_used w) |}.
Proof.
  intros Hdata. cbn [message_items]. unfold mbind at 1, IO_bind at 1.
  unfold mbind at 1, IO_bind at 1.
  rewrite (download_temp_file_returns _ _ _ _ Hdata). reflexivity.
Qed.

Lemma temp_path_png (dir random : string) :
  endswith (dir +:+ "/" +:+ "tmp" +:+ random +:+ ".png") ".png" = true.
Proof. rewrite <- !append_assoc. apply endswith_append. Qed.

(** Running the loop over the segments [before], whose images can all be
    fetched: one new file per image, newest first. *)
Lemma message_items_app (content : string) (before rest : list MessageContent)
    (w : World) :
  Forall downloadable (image_file_ids before) ->
  exists content' w' new,
    message_items content (before ++ rest) w = message_items content' rest w' /\
    files w' = new ++ files w /\
    names_used w' = names_used w + length (image_file_ids before) /\
    Forall (fun f => endswith (fst f) ".png" = true) new /\
    map (fun f => Returned (snd f)) (rev new)
    = map retrieve_content (image_file_ids before).
Proof.
  revert content w.
  induction before as [|item more IH]; intros content w Hall.
  - exists content, w, []. repeat split; [cbn; lia | apply Forall_nil_2].
  - destruct item as [value | file_id].
    + cbn [app]. rewrite message_items_text. apply IH. exact Hall.
    + cbn [image_file_ids] in Hall |- *.
      apply Forall_cons in Hall as [[data Hdata] Hmore].
      cbn [app]. rewrite (message_items_image _ _ _ _ _ Hdata). cbv zeta.
      match goal with
      | |- context [message_items ?c (more ++ rest) ?w1] =>
          destruct (IH c w1 Hmore)
            as (content' & w' & new & Hrun & Hfiles & Hnames & Hpng & Hdatas)
      end.
      cbn [files names_used] in Hfiles, Hnames.
      eexists content', w', (new ++ [_]). split; [exact Hrun |].
      split; [rewrite <- app_assoc; exact Hfiles |].
      split; [cbn [length]; lia |].
      split.
      * apply Forall_app. split; [exact Hpng |].
        apply Forall_cons_2; [apply temp_path_png | apply Forall_nil_2].
      * rewrite rev_app_distr. cbn [rev app map fst snd].
        now rewrite Hdatas, Hdata.
Qed.

(** A message whose images can be fetched is formatted, and the world
    gains exactly one temporary file per image segment: its name ends in
    ".png", it holds what was downloaded for that segment, and the files
    that were there before are untouched. *)
Theorem format_message_temp_files (message : Message) (w : World) :
  Forall downloadable (image_file_ids (content message)) ->
  exists p w' new,
    format_message message w = (Returned p, w') /\
    files w' = new ++ files w /\
    length new = length (image_file_ids (content message)) /\
    Forall (fun f => endswith (fst f) ".png" = true) new /\
    map (fun f => Returned (snd f)) (rev new)
    = map retrieve_content (image_file_ids (content message)).
Proof.
  intros Hall.
  destruct (message_items_app "" (content message) [] w Hall)
    as (content' & w' & new & Hrun & Hfiles & _ & Hpng & Hdatas).
  rewrite app_nil_r in Hrun.
  unfold format_message, mbind, IO_bind. rewrite Hrun. cbn [message_items mret IO_ret].
  eexists _, w', new. split; [reflexivity |].
  split; [exact Hfiles |]. split; [| split; [exact Hpng | exact Hdatas]].
  apply (f_equal (@length _)) in Hdatas.
  now rewrite !length_map, length_rev in Hdatas.
Qed.

(** A message without image segments is always formatted, and formatting
    it leaves the world as it was. *)
Theorem format_message_without_images (message : Message) (w : World) :
  image_file_ids (content message) = [] ->
  exists p, format_message message w = (Returned p, w).
Proof.
  intros Hnone.
  assert (Hall : Forall downloadable (image_file_ids (content message))).
  { rewrite Hnone. apply Forall_nil_2. }
  destruct (message_items_app "" (content message) [] w Hall)
    as (content' & w' & new & Hrun & Hfiles & Hnames & _ & Hdatas).
  rewrite app_nil_r in Hrun. rewrite Hnone in Hnames, Hdatas.
  destruct new as [|f new];
    [| apply (f_equal (@length _)) in Hdatas;
       rewrite length_map, length_rev in Hdatas; discriminate].
  assert (w' = w) as ->.
  { destruct w', w. cbn in Hfiles, Hnames. subst. f_equal. cbn. lia. }
  unfold format_message, mbind, IO_bind. rewrite Hrun. cbn [message_items mret IO_ret].
  eexists. reflexivity.
Qed.

(** The exception that leaves [format_message] is that of the first image
    whose download raises; the files written for the images before it stay
    behind. *)
Theorem format_message_first_failure (message : Message) (w : World)
    (before after : list MessageContent) (file_id : string) (e : exception) :
  content message = before ++ MessageContentImageFile file_id :: after ->
  Forall downloadable (image_file_ids before) ->
  retrieve_content file_id = Raised e ->
  exists w' new,
    format_message message w = (Raised e, w') /\
    files w' = new ++ files w /\
    length new = length (image_file_ids before).
Proof.
  intros Hcontent Hall He.
  destruct (message_items_app "" before
              (MessageContentImageFile file_id :: after) w Hall)
    as (content' & w' & new & Hrun & Hfiles & _ & _ & Hdatas).
  exists w', new. split; [| split; [exact Hfiles |]].
  - unfold format_message, mbind, IO_bind.
    now rewrite Hcontent, Hrun, (message_items_image_raises _ _ _ _ _ He).
  - apply (f_equal (@length _)) in Hdatas.
    now rewrite !length_map, length_rev in Hdatas.
Qed.

Lemma lstrip_char_prefix (ch : ascii) (s : string) :
  String.prefix (String ch "") (lstrip_char ch s) = false.
Proof.
  induction s as [|c s IH]; [reflexivity |]. cbn [lstrip_char].
  destruct (Ascii.eqb_spec c ch) as [-> | Hne]; [exact IH |].
  cbn [String.prefix]. destruct (ascii_dec ch c) as [-> | _]; [contradiction | reflexivity].
Qed.

(** The time in the subtitle of a message panel is what [strftime] gives
    without its leading zeros: it never starts with the digit 0. *)
Theorem format_message_subtitle (message : Message) (w : World) :
  Forall downloadable (image_file_ids (content message)) ->
  exists p w' time,
    format_message message w = (Returned p, w') /\
    subtitle p = "[italic]" +:+ time +:+ "[/]" /\
    time = lstrip_char "0" (strftime "%I:%M:%S %p" (created_at message)) /\
    String.prefix "0" time = false.
Proof.
  intros Hall.
  destruct (message_items_returns "" (content message) w Hall)
    as (content' & w' & Hitems).
  unfold format_message, mbind, IO_bind. rewrite Hitems.
  eexists _, w', _. split; [reflexivity |]. split; [reflexivity |].
  split; [reflexivity | apply lstrip_char_prefix].
Qed.

End MessageFormatterMore.

(** ** More on the run merger *)

Lemma insert_by_filter {A : Type} (key : A -> Z) (x : A) (l : list A) (k : Z) :
  List.filter (fun y => (key y =? k)%Z) (insert_by key x l)
  = List.filter (fun y => (key y =? k)%Z) (x :: l).
Proof.
  induction l as [|y rest IH]; [reflexivity |]. cbn [insert_by].
  destruct (Z.leb_spec (key x) (key y)) as [Hle | Hgt]; [reflexivity |].
  cbn [List.filter] in IH |- *. rewrite IH.
  destruct (Z.eqb_spec (key x) k) as [Hx | Hx];
    destruct (Z.eqb_spec (key y) k) as [Hy | Hy]; try reflexivity.
  lia.
Qed.

(** [sorted] is stable: the elements with one key keep their order. *)
Lemma sorted_stable {A : Type} (l : list A) (key : A -> Z) (k : Z) :
  List.filter (fun y => (key y =? k)%Z) (sorted l key)
  = List.filter (fun y => (key y =? k)%Z) l.
Proof.
  unfold sorted. induction l as [|x rest IH]; [reflexivity |].
  cbn [foldr]. rewrite insert_by_filter. cbn [List.filter]. now rewrite IH.
Qed.

Lemma for_each_raises {A B : Type} (f : A -> IO B) (xs : list A) (x : A)
    (w : World) :
  In x xs ->
  (forall w, exists e w', f x w = (Raised e, w')) ->
  exists e w', for_each f xs w = (Raised e, w').
Proof.
  intros Hin Hx. revert w. induction xs as [|y rest IH]; intros w.
  - contradiction.
  - cbn [for_each]. unfold mbind at 1, IO_bind at 1.
    destruct (f y w) as [[b | e] w1] eqn:Hy.
    + destruct Hin as [-> | Hin].
      * destruct (Hx w) as (e & w' & He). congruence.
      * unfold mbind at 1, IO_bind at 1.
        destruct (IH Hin w1) as (e & w' & ->). now exists e, w'.
    + now exists e, w1.
Qed.

Section RunMergerMore.
Context `{E : Externals}.

Lemma format_message_raises (message : Message) (w : World) :
  image_fails message -> exists e w', format_message message w = (Raised e, w').
Proof.
  intros (file_id & e & Hin & He).
  destruct (message_items_raises "" (content message) w file_id e Hin He)
    as (file_id' & e' & w' & _ & _ & Hitems).
  exists e', w'. unfold format_message, mbind, IO_bind. now rewrite Hitems.
Qed.

Lemma format_message_returns (message : Message) (w : World) :
  images_downloadable message ->
  exists p w', format_message message w = (Returned p, w').
Proof.
  intros Hall.
  destruct (message_items_returns "" (content message) w Hall)
    as (content' & w' & Hitems).
  unfold format_message, mbind, IO_bind. rewrite Hitems.
  eexists _, w'. reflexivity.
Qed.

(** The result of [format_run] has one entry per message and per step:
    the filter on [None] removes nothing, a step without panels included. *)
Theorem format_run_one_entry_per_object (run : Run) (w : World)
    (objects : list (option Renderable)) (w' : World) :
  format_run run w = (Returned objects, w') ->
  length objects = length (messages run) + length (steps run) /\
  Forall (fun object => is_not_None object = true) objects.
Proof.
  intros Hrun. split; [exact (format_run_keeps_every_object _ _ _ _ Hrun) |].
  revert Hrun. unfold format_run. unfold mbind at 1, IO_bind at 1.
  destruct (for_each message_pair (messages run) w)
    as [[of_messages | e] w1]; [| discriminate].
  unfold mbind at 1, IO_bind at 1.
  destruct (for_each step_pair (steps run) w1)
    as [[of_steps | e] w2]; [| discriminate].
  intros H. injection H as <- _.
  apply Forall_map, List.Forall_forall. intros x Hx.
  now apply filter_In in Hx as [_ Hx].
Qed.

(** The result of [format_run] lists the formatted messages and steps by
    ascending time stamp; objects with the same time stamp keep the order
    in which they were formatted, messages before steps. *)
Theorem format_run_ascending_and_stable (run : Run) (w : World)
    (objects : list (option Renderable)) (w' : World) :
  format_run run w = (Returned objects, w') ->
  exists of_messages w1 of_steps pairs,
    for_each message_pair (messages run) w = (Returned of_messages, w1) /\
    for_each step_pair (steps run) w1 = (Returned of_steps, w') /\
    objects = map fst pairs /\
    StronglySorted (fun a b => (snd a <= snd b)%Z) pairs /\
    forall t,
      List.filter (fun x => (snd x =? t)%Z) pairs
      = List.filter (fun x => (snd x =? t)%Z) (of_messages ++ of_steps).
Proof.
  unfold format_run. unfold mbind at 1, IO_bind at 1.
  destruct (for_each message_pair (messages run) w)
    as [[of_messages | e] w1] eqn:Hm; [| discriminate].
  unfold mbind at 1, IO_bind at 1.
  destruct (for_each step_pair (steps run) w1)
    as [[of_steps | e] w2] eqn:Hs; [| discriminate].
  intros H. injection H as <- <-.
  destruct (for_each_Forall _ _ _ _ _ _ message_pair_not_None Hm) as [Pm _].
  destruct (for_each_Forall _ _ _ _ _ _ step_pair_not_None Hs) as [Ps _].
  exists of_messages, w1, of_steps, (sorted (of_messages ++ of_steps) snd).
  split; [reflexivity |]. split; [exact Hs |]. split.
  - rewrite filter_all; [reflexivity |].
    rewrite sorted_Permutation. apply Forall_app. split; assumption.
  - split; [apply sorted_ascending | intros t; apply sorted_stable].
Qed.

(** [format_run] formats every message before it sorts anything: when
    an image of one of the messages cannot be fetched, [format_run] raises
    and returns no list at all. *)
Theorem format_run_message_error (run : Run) (w : World) (message : Message) :
  In message (messages run) ->
  image_fails message ->
  exists e w', format_run run w = (Raised e, w').
Proof.
  intros Hin Hfails.
  destruct (for_each_raises message_pair (messages run) message w Hin)
    as (e & w' & Hm).
  { intros w0. destruct (format_message_raises message w0 Hfails) as (e & w' & He).
    exists e, w'. unfold message_pair, mbind, IO_bind. now rewrite He. }
  exists e, w'. unfold format_run. unfold mbind at 1, IO_bind at 1.
  now rewrite Hm.
Qed.

End RunMergerMore.

(** ** The printing functions *)

Section PrintingProperties.
Context `{E : Externals}.

Lemma pprint_run_step_prints (step : RunStep) (g : Group) (s : Screen) :
  format_step step = Returned g ->
  pprint_run_step step s
  = (Returned tt,
     {| world := world s; printed := printed s ++ [PrintGroup g] |}).
Proof.
  intros Hg. unfold pprint_run_step, mbind, Print_bind, run_io, lift.
  now rewrite Hg.
Qed.

(** [pprint_run_step] prints exactly one group for every step, with one
    panel per tool call: the test [if not panel] never turns it back, so a
    [message_creation] step prints a group without panels. *)
Theorem pprint_run_step_always_prints (step : RunStep) (s : Screen) :
  step_in_contract step ->
  exists g,
    format_step step = Returned g /\
    length (renderables g)
    = match step_details step with
      | ToolCallsStepDetails tool_calls => length tool_calls
      | MessageCreationStepDetails _ => 0
      end /\
    pprint_run_step step s
    = (Returned tt,
       {| world := world s; printed := printed s ++ [PrintGroup g] |}).
Proof.
  unfold step_in_contract. intros Hall.
  destruct (step_details step) as [tool_calls | message_id] eqn:Hd.
  - eexists. split; [apply (format_step_tool_calls _ _ Hd Hall) |]. split.
    + cbn [renderables]. now rewrite length_fmap, contents_after_length.
    + apply pprint_run_step_prints, (format_step_tool_calls _ _ Hd Hall).
  - assert (Hg : format_step step = Returned {| renderables := [] |}).
    { unfold format_step. now rewrite Hd. }
    eexists. split; [exact Hg |]. split; [reflexivity |].
    now apply pprint_run_step_prints.
Qed.

Lemma pprint_message_returns (message : Message) (s : Screen) (p : Panel)
    (w' : World) :
  format_message message (world s) = (Returned p, w') ->
  pprint_message message s
  = (Returned tt, {| world := w'; printed := printed s ++ [PrintPanel p] |}).
Proof.
  intros Hp. unfold pprint_message, mbind, Print_bind, run_io.
  now rewrite Hp.
Qed.

Lemma pprint_message_raises (message : Message) (s : Screen) (e : exception)
    (w' : World) :
  format_message message (world s) = (Raised e, w') ->
  pprint_message message s
  = (Raised e, {| world := w'; printed := printed s |}).
Proof.
  intros He. unfold pprint_message, mbind, Print_bind, run_io.
  now rewrite He.
Qed.

(** When the images of all the messages can be fetched, [pprint_messages]
    prints one panel per message, in the order of the list: the panels
    that formatting the messages one after the other gives. *)
Theorem pprint_messages_prints_in_order (messages : list Message) (s : Screen) :
  Forall images_downloadable messages ->
  exists panels w',
    for_each format_message messages (world s) = (Returned panels, w') /\
    length panels = length messages /\
    pprint_messages messages s
    = (Returned tt,
       {| world := w'; printed := printed s ++ map PrintPanel panels |}).
Proof.
  intros Hall. revert s.
  induction Hall as [|message rest Hm _ IH]; intros s.
  - exists [], (world s). split; [reflexivity |]. split; [reflexivity |].
    cbn [pprint_messages map]. rewrite app_nil_r. now destruct s.
  - destruct (format_message_returns message (world s) Hm) as (p & w1 & Hp).
    destruct (IH {| world := w1; printed := printed s ++ [PrintPanel p] |})
      as (panels & w' & Hfor & Hlen & Hprint).
    cbn [world printed] in Hfor, Hprint.
    exists (p :: panels), w'. split; [| split].
    + cbn [for_each]. unfold mbind at 1, IO_bind at 1. rewrite Hp.
      unfold mbind at 1, IO_bind at 1. now rewrite Hfor.
    + cbn [length]. now rewrite Hlen.
    + cbn [pprint_messages]. unfold mbind, Print_bind.
      rewrite (pprint_message_returns _ _ _ _ Hp), Hprint.
      cbn [map]. now rewrite <- app_assoc.
Qed.

(** [pprint_messages] prints as it goes: when formatting a message
    raises, what is on the screen is exactly the panels of the messages
    before it, in order, and the exception is the one formatting that
    message raised. *)
Theorem pprint_messages_stops_at_first_error (before after : list Message)
    (message : Message) (s : Screen) :
  Forall images_downloadable before ->
  image_fails message ->
  exists e panels w1 w',
    for_each format_message before (world s) = (Returned panels, w1) /\
    format_message message w1 = (Raised e, w') /\
    pprint_messages (before ++ message :: after) s
    = (Raised e,
       {| world := w'; printed := printed s ++ map PrintPanel panels |}).
Proof.
  intros Hall Hfails. revert s.
  induction Hall as [|first rest Hm _ IH]; intros s.
  - destruct (format_message_raises message (world s) Hfails) as (e & w' & He).
    exists e, [], (world s), w'.
    split; [reflexivity |]. split; [exact He |].
    cbn [app pprint_messages map]. unfold mbind, Print_bind.
    now rewrite (pprint_message_raises _ _ _ _ He), app_nil_r.
  - destruct (format_message_returns first (world s) Hm) as (p & w0 & Hp).
    destruct (IH {| world := w0; printed := printed s ++ [PrintPanel p] |})
      as (e & panels & w1 & w' & Hfor & He & Hrun).
    cbn [world printed] in Hfor, Hrun.
    exists e, (p :: panels), w1, w'. split; [| split; [exact He |]].
    + cbn [for_each]. unfold mbind at 1, IO_bind at 1. rewrite Hp.
      unfold mbind at 1, IO_bind at 1. now rewrite Hfor.
    + cbn [app pprint_messages]. unfold mbind at 1, Print_bind at 1.
      rewrite (pprint_message_returns _ _ _ _ Hp), Hrun.
      cbn [map]. now rewrite <- app_assoc.
Qed.

(** [pprint_run] formats the whole run before it prints: when an image
    of one of the messages cannot be fetched it raises and has printed
    nothing. *)
Theorem pprint_run_error_prints_nothing (run : Run) (s : Screen)
    (message : Message) :
  In message (messages run) ->
  image_fails message ->
  exists e s', pprint_run run s = (Raised e, s') /\ printed s' = printed s.
Proof.
  intros Hin Hfails.
  destruct (for_each_raises message_pair (messages run) message (world s) Hin)
    as (e & w' & Hm).
  { intros w0. destruct (format_message_raises message w0 Hfails) as (e & w' & He).
    exists e, w'. unfold message_pair, mbind, IO_bind. now rewrite He. }
  exists e, {| world := w'; printed := printed s |}. split; [| reflexivity].
  unfold pprint_run, mbind, Print_bind, run_io, format_run.
  unfold mbind at 1, IO_bind at 1. now rewrite Hm.
Qed.

End PrintingProperties.

(** ** The further properties on the demo data *)

Lemma demo_shallow_retrieval_in_contract :
  Forall (@tool_call_in_contract demo_shallow) [RetrievalToolCall].
Proof. apply Forall_cons_2; [exact I | apply Forall_nil_2]. Qed.

Lemma demo_message_user_downloadable :
  Forall (@downloadable demo) (image_file_ids (content demo_message_user)).
Proof.
  apply Forall_cons_2; [| apply Forall_nil_2]. exists "PNG". reflexivity.
Qed.

Lemma demo_message_broken_fails : @image_fails demo demo_message_broken.
Proof.
  exists "file-2", APIError. split; [right; left; reflexivity | reflexivity].
Qed.

Lemma format_step_one_panel_per_tool_call_witness :
  exists panels,
    @format_step demo demo_step_functions
    = Returned {| renderables := panels |} /\
    length panels = 2 /\
    Forall (fun p =>
              title p = "System" /\
              subtitle p = "[italic]09:05:00 AM[/]" /\
              border_style p = "gray74" /\
              width p = 100%Z) panels.
Proof.
  apply (@format_step_one_panel_per_tool_call demo demo_step_functions
           [FunctionToolCall demo_function_1; FunctionToolCall demo_function_2]).
  - reflexivity.
  - demo_outputs.
Defined.

Lemma function_call_panel_body_witness :
  exists panels p,
    @format_step demo demo_step_functions
    = Returned {| renderables := panels |} /\
    panels !! 0 = Some p /\
    markup (renderable p)
    = expandtabs
        (join NL
           ["Assistant is using the `f` tool with arguments:"; "";
            "```python"; "[1]"; "```"; ""; "Result:"; ""; "```python"; "ok";
            "```"]).
Proof.
  apply (@function_call_panel_body demo demo_step_functions
           [FunctionToolCall demo_function_1; FunctionToolCall demo_function_2]
           0 demo_function_1).
  - reflexivity.
  - demo_outputs.
  - reflexivity.
Defined.

Lemma format_step_strict_parse_error_escapes_witness :
  @json_loads demo_shallow (arguments demo_function_deep)
  = Raised RecursionError /\
  @format_step demo_shallow demo_step_deep = Raised RecursionError.
Proof.
  split; [reflexivity |].
  apply (@format_step_strict_parse_error_escapes demo_shallow demo_step_deep
           [RetrievalToolCall] [] demo_function_deep RecursionError).
  - reflexivity.
  - apply demo_shallow_retrieval_in_contract.
  - reflexivity.
  - reflexivity.
Defined.

Lemma format_message_temp_files_witness :
  exists p w' new,
    @format_message demo demo_message_user empty_world = (Returned p, w') /\
    files w' = new ++ [] /\
    length new = 1 /\
    Forall (fun f => endswith (fst f) ".png" = true) new /\
    map (fun f => Returned (snd f)) (rev new) = [Returned "PNG"].
Proof.
  apply (@format_message_temp_files demo demo_message_user empty_world).
  apply demo_message_user_downloadable.
Defined.

Lemma format_message_without_images_witness :
  image_file_ids (content demo_message_text) = [] /\
  exists p, @format_message demo demo_message_text empty_world
            = (Returned p, empty_world).
Proof.
  split; [reflexivity |].
  apply (@format_message_without_images demo demo_message_text empty_world).
  reflexivity.
Defined.

Lemma format_message_first_failure_witness :
  exists w' new,
    @format_message demo demo_message_broken empty_world
    = (Raised APIError, w') /\
    files w' = new ++ [] /\ length new = 0.
Proof.
  apply (@format_message_first_failure demo demo_message_broken empty_world
           [MessageContentText "see"] [] "file-2" APIError).
  - reflexivity.
  - apply Forall_nil_2.
  - reflexivity.
Defined.

Lemma format_message_subtitle_witness :
  exists p w' time,
    @format_message demo demo_message_user empty_world = (Returned p, w') /\
    subtitle p = "[italic]" +:+ time +:+ "[/]" /\
    time = "9:05:00 AM" /\
    String.prefix "0" time = false.
Proof.
  apply (@format_message_subtitle demo demo_message_user empty_world).
  apply demo_message_user_downloadable.
Defined.

Lemma demo_run_mixed_formats :
  @format_run demo demo_run_mixed empty_world
  = (Returned demo_objects_mixed, empty_world).
Proof. vm_compute. reflexivity. Qed.

Lemma format_run_one_entry_per_object_witness :
  @format_run demo demo_run_mixed empty_world
  = (Returned demo_objects_mixed, empty_world) /\
  length demo_objects_mixed = 3 /\
  Forall (fun object => is_not_None object = true) demo_objects_mixed.
Proof.
  split; [apply demo_run_mixed_formats |].
  apply (@format_run_one_entry_per_object demo demo_run_mixed empty_world
           demo_objects_mixed empty_world).
  apply demo_run_mixed_formats.
Defined.

Lemma format_run_ascending_and_stable_witness :
  exists of_messages w1 of_steps pairs,
    for_each (@message_pair demo) (messages demo_run_mixed) empty_world
    = (Returned of_messages, w1) /\
    for_each (@step_pair demo) (steps demo_run_mixed) w1
    = (Returned of_steps, empty_world) /\
    demo_objects_mixed = map fst pairs /\
    StronglySorted (fun a b => (snd a <= snd b)%Z) pairs /\
    forall t,
      List.filter (fun x => (snd x =? t)%Z) pairs
      = List.filter (fun x => (snd x =? t)%Z) (of_messages ++ of_steps).
Proof.
  apply (@format_run_ascending_and_stable demo demo_run_mixed empty_world
           demo_objects_mixed empty_world).
  apply demo_run_mixed_formats.
Defined.

Lemma format_run_message_error_witness :
  In demo_message_broken (messages demo_run_broken) /\
  exists e w', @format_run demo demo_run_broken empty_world = (Raised e, w').
Proof.
  assert (Hin : In demo_message_broken (messages demo_run_broken)).
  { right. left. reflexivity. }
  split; [exact Hin |].
  exact (@format_run_message_error demo demo_run_broken empty_world
           demo_message_broken Hin demo_message_broken_fails).
Defined.

Lemma pprint_run_step_always_prints_witness :
  exists g,
    @format_step demo demo_step_message_creation = Returned g /\
    length (renderables g) = 0 /\
    @pprint_run_step demo demo_step_message_creation empty_screen
    = (Returned tt,
       {| world := empty_world; printed := [PrintGroup g] |}).
Proof.
  apply (@pprint_run_step_always_prints demo demo_step_message_creation
           empty_screen).
  exact I.
Defined.

Lemma pprint_messages_prints_in_order_witness :
  exists panels w',
    for_each (@format_message demo) [demo_message_user; demo_message_text]
      empty_world
    = (Returned panels, w') /\
    length panels = 2 /\
    @pprint_messages demo [demo_message_user; demo_message_text] empty_screen
    = (Returned tt, {| world := w'; printed := map PrintPanel panels |}).
Proof.
  apply (@pprint_messages_prints_in_order demo
           [demo_message_user; demo_message_text] empty_screen).
  apply Forall_cons_2; [apply demo_message_user_downloadable |].
  apply Forall_cons_2; [apply Forall_nil_2 | apply Forall_nil_2].
Defined.

Lemma pprint_messages_stops_at_first_error_witness :
  exists e panels w1 w',
    for_each (@format_message demo) [demo_message_user] empty_world
    = (Returned panels, w1) /\
    @format_message demo demo_message_broken w1 = (Raised e, w') /\
    @pprint_messages demo
      [demo_message_user; demo_message_broken; demo_message_text] empty_screen
    = (Raised e, {| world := w'; printed := map PrintPanel panels |}).
Proof.
  apply (@pprint_messages_stops_at_first_error demo [demo_message_user]
           [demo_message_text] demo_message_broken empty_screen).
  - apply Forall_cons_2; [apply demo_message_user_downloadable |].
    apply Forall_nil_2.
  - apply demo_message_broken_fails.
Defined.

Lemma pprint_run_error_prints_nothing_witness :
  In demo_message_broken (messages demo_run_broken) /\
  exists e s',
    @pprint_run demo demo_run_broken empty_screen = (Raised e, s') /\
    printed s' = [].
Proof.
  assert (Hin : In demo_message_broken (messages demo_run_broken)).
  { right. left. reflexivity. }
  split; [exact Hin |].
  exact (@pprint_run_error_prints_nothing demo demo_run_broken empty_screen
           demo_message_broken Hin demo_message_broken_fails).
Defined.

(** ** An image as first output *)

Section ImageOutput.
Context `{E : Externals}.

(** The loop reads [outputs[0].logs] of a code-interpreter call whatever
    the kind of that output: when the first output is an image,
    [format_step] raises [AttributeError] and returns no panel, those of
    the entries before included. *)
Theorem format_step_image_output_raises (step : RunStep)
    (before after : list ToolCall) (code_interpreter : CodeInterpreter)
    (file_id : string) (rest : list CodeInterpreterOutput) :
  step_details step
  = ToolCallsStepDetails
      (before ++ CodeInterpreterToolCall code_interpreter :: after) ->
  Forall tool_call_in_contract before ->
  outputs code_interpreter = CodeInterpreterOutputImage file_id :: rest ->
  format_step step = Raised AttributeError.
Proof.
  intros Hd Hall Houtputs. unfold format_step. rewrite Hd.
  match goal with
  | |- context [format_tool_calls ?ts ?c ?ps _] =>
      destruct (format_tool_calls_app ts c ps before
                  (CodeInterpreterToolCall code_interpreter :: after) Hall)
        as (content' & panels' & ->)
  end.
  cbn [format_tool_calls tool_call_content]. now rewrite Houtputs.
Qed.

End ImageOutput.

Lemma format_step_image_output_raises_witness :
  outputs demo_code_image = [CodeInterpreterOutputImage "file-7"] /\
  @format_step demo demo_step_image = Raised AttributeError.
Proof.
  split; [reflexivity |].
  apply (@format_step_image_output_raises demo demo_step_image
           [RetrievalToolCall] [] demo_code_image "file-7" []).
  - reflexivity.
  - apply Forall_cons_2; [exact I | apply Forall_nil_2].
  - reflexivity.
Defined.
